(** * gluish: canonical task paths, SplitFile and Executable

    A shallow embedding of [gluish/task.py] and of the [SplitFile] and
    [Executable] tasks of [gluish/common.py] (Python 2), followed by the
    properties of the specification that concern them.

    Python [str] values are [string]s (one [ascii] per byte), and a string
    that may be a [unicode] text carries its kind; integers are [Z],
    dictionaries whose iteration order matters are association lists and the
    filesystem is a finite map from paths to file contents. *)

From Stdlib Require Import ZArith Ascii String List DecimalString Permutation.
From stdpp Require Import gmap strings list sorting.

(** ** Python primitives *)

(** The exceptions raised by the modelled code. *)
Inductive exn : Type :=
| RuntimeError (msg : string)
| AttributeError (msg : string)
| ZeroDivisionError (msg : string)
| IOError (filename : string)
| UnicodeDecodeError (object : string).

(** A computation either returns a value or raises. *)
Inductive result (A : Type) : Type :=
| Ok (a : A)
| Raise (e : exn).
Arguments Ok {A} a.
Arguments Raise {A} e.

Global Instance result_ret : MRet result := fun _ a => Ok a.
Global Instance result_bind : MBind result := fun _ _ f m =>
  match m with
  | Ok a => f a
  | Raise e => Raise e
  end.

(** The newline character and one-character strings. *)
Definition LF : ascii := ascii_of_nat 10.
Definition SLASH : ascii := "/"%char.
Definition nl : string := String LF "".

Definition is_slash (c : ascii) : bool := bool_decide (c = SLASH).
Definition is_newline (c : ascii) : bool := bool_decide (c = LF).

(** [s.startswith(p)] *)
Fixpoint startswith (s p : string) : bool :=
  match p, s with
  | "", _ => true
  | String a p', String b s' => bool_decide (a = b) && startswith s' p'
  | String _ _, "" => false
  end.

(** [s.endswith('/')] *)
Fixpoint endswith_slash (s : string) : bool :=
  match s with
  | "" => false
  | String c "" => is_slash c
  | String _ s' => endswith_slash s'
  end.

(** [c in s] for a single character [c] *)
Fixpoint contains (c : ascii) (s : string) : bool :=
  match s with
  | "" => false
  | String a s' => bool_decide (a = c) || contains c s'
  end.

(** [all(f(c) for c in s)] *)
Fixpoint str_forall (f : ascii -> bool) (s : string) : bool :=
  match s with
  | "" => true
  | String c s' => f c && str_forall f s'
  end.

(** [''.join(ls)] *)
Definition cat (ls : list string) : string := foldr String.append "" ls.

(** [sep.join(ls)] *)
Definition str_join (sep : string) (ls : list string) : string :=
  String.concat sep ls.

(** [sorted(ls)] on byte strings: ascending lexicographic byte order. *)
Definition sorted (ls : list string) : list string := merge_sort String.le ls.

(** A byte below 128. *)
Definition is_ascii_char (c : ascii) : bool := (N_of_ascii c <? 128)%N.
Definition is_ascii (s : string) : bool := str_forall is_ascii_char s.

(** A Python 2 string is a byte string ([str]) or a text ([unicode]). The
    texts of the program are decoded from ASCII bytes, so that a text is
    held like a byte string, one character per [ascii]. *)
Inductive pystr : Type :=
| Str (s : string)
| Unicode (s : string).

Definition chars (s : pystr) : string :=
  match s with
  | Str s => s
  | Unicode s => s
  end.

(** [s.decode('ascii')], the coercion of a byte string to a text with the
    default codec: a byte above 127 raises. *)
Definition decode (s : string) : result string :=
  if is_ascii s then Ok s else Raise (UnicodeDecodeError s).

(** [unicode(s)] *)
Definition unicode (s : pystr) : result pystr :=
  match s with
  | Str s => s ← decode s; Ok (Unicode s)
  | Unicode s => Ok (Unicode s)
  end.

(** [a + b]: a byte string added to a text is coerced to a text first. *)
Definition py_add (a b : pystr) : result pystr :=
  match a, b with
  | Str s, Str t => Ok (Str (s +:+ t))
  | Str s, Unicode t => s ← decode s; Ok (Unicode (s +:+ t))
  | Unicode s, Str t => t ← decode t; Ok (Unicode (s +:+ t))
  | Unicode s, Unicode t => Ok (Unicode (s +:+ t))
  end.

(** [str(n)] for an integer. *)
Definition str_of_Z (n : Z) : string := NilZero.string_of_int (Z.to_int n).

(** [a / b] on Python 2 integers: floor division, raising on a zero divisor. *)
Definition py_div (a b : Z) : result Z :=
  if bool_decide (b = 0%Z)
  then Raise (ZeroDivisionError "integer division or modulo by zero")
  else Ok (a / b)%Z.

(** ** hashlib.sha1 *)

Module SHA1.
Local Open Scope Z_scope.

Definition mask32 : Z := 0xFFFFFFFF.
Definition add32 (a b : Z) : Z := Z.land (a + b) mask32.
Definition rotl32 (n x : Z) : Z :=
  Z.land (Z.lor (Z.shiftl x n) (Z.shiftr x (32 - n))) mask32.

Definition bytes_of_string (s : string) : list Z :=
  map (fun c => Z.of_N (N_of_ascii c)) (list_ascii_of_string s).

(** Big-endian bytes of [x], [width] of them. *)
Definition be_bytes (width : nat) (x : Z) : list Z :=
  map (fun i => Z.land (Z.shiftr x (8 * Z.of_nat i)) 0xFF) (rev (seq 0 width)).

Definition pad (msg : list Z) : list Z :=
  let len := Z.of_nat (length msg) in
  let zeros := Z.to_nat ((55 - len) mod 64) in
  msg ++ 0x80 :: repeat 0 zeros ++ be_bytes 8 (8 * len).

Fixpoint be_words (bs : list Z) : list Z :=
  match bs with
  | b0 :: b1 :: b2 :: b3 :: rest =>
      Z.lor (Z.shiftl b0 24) (Z.lor (Z.shiftl b1 16) (Z.lor (Z.shiftl b2 8) b3))
      :: be_words rest
  | _ => []
  end.

Fixpoint blocks (fuel : nat) (ws : list Z) : list (list Z) :=
  match fuel, ws with
  | S fuel, _ :: _ => firstn 16 ws :: blocks fuel (skipn 16 ws)
  | _, _ => []
  end.

(** The message schedule, newest word first: [w] holds W[t-1], W[t-2], ... *)
Fixpoint schedule (n : nat) (w : list Z) : list Z :=
  match n with
  | O => w
  | S n =>
      let x := Z.lxor (Z.lxor (nth 2 w 0) (nth 7 w 0))
                      (Z.lxor (nth 13 w 0) (nth 15 w 0)) in
      schedule n (rotl32 1 x :: w)
  end.

Definition state : Type := Z * Z * Z * Z * Z.

Definition round (t : nat) (st : state) (w : Z) : state :=
  let '(a, b, c, d, e) := st in
  let '(f, k) :=
    if (t <? 20)%nat then
      (Z.lor (Z.land b c) (Z.land (Z.lxor b mask32) d), 0x5A827999)
    else if (t <? 40)%nat then
      (Z.lxor b (Z.lxor c d), 0x6ED9EBA1)
    else if (t <? 60)%nat then
      (Z.lor (Z.land b c) (Z.lor (Z.land b d) (Z.land c d)), 0x8F1BBCDC)
    else
      (Z.lxor b (Z.lxor c d), 0xCA62C1D6) in
  let temp := add32 (add32 (add32 (add32 (rotl32 5 a) f) e) k) w in
  (temp, a, rotl32 30 b, c, d).

Fixpoint rounds (t : nat) (ws : list Z) (st : state) : state :=
  match ws with
  | [] => st
  | w :: ws => rounds (S t) ws (round t st w)
  end.

Definition compress (h : state) (block : list Z) : state :=
  let w := rev (schedule 64 (rev block)) in
  let '(h0, h1, h2, h3, h4) := h in
  let '(a, b, c, d, e) := rounds 0 w h in
  (add32 h0 a, add32 h1 b, add32 h2 c, add32 h3 d, add32 h4 e).

Definition init : state :=
  (0x67452301, 0xEFCDAB89, 0x98BADCFE, 0x10325476, 0xC3D2E1F0).

Definition digest (msg : list Z) : list Z :=
  let ws := be_words (pad msg) in
  let '(h0, h1, h2, h3, h4) :=
    fold_left compress (blocks (length ws) ws) init in
  flat_map (be_bytes 4) [h0; h1; h2; h3; h4].

Definition hexdigit (x : Z) : ascii :=
  nth (Z.to_nat x) (list_ascii_of_string "0123456789abcdef") "0"%char.

Definition hex (bs : list Z) : string :=
  string_of_list_ascii
    (flat_map (fun b => [hexdigit (Z.shiftr b 4); hexdigit (Z.land b 0xF)]) bs).

(** [hashlib.sha1(s).hexdigest()] *)
Definition hexdigest (s : string) : string := hex (digest (bytes_of_string s)).
End SHA1.

(** ** os.path (posixpath) *)

Module OsPath.
(** One step of the loop of [posixpath.join], on byte strings. *)
Definition join2 (path b : string) : string :=
  if startswith b "/" then b
  else if bool_decide (path = "") || endswith_slash path then path +:+ b
  else path +:+ "/" +:+ b.

(** [os.path.join(a, *p)] on byte strings. *)
Definition join (a : string) (p : list string) : string := foldl join2 a p.

(** One step of the loop of [posixpath.join] on strings of either kind:
    [path = b] takes [b] as it is, [path += b] and [path += '/' + b] coerce
    a byte string that meets a text. *)
Definition ujoin2 (path b : pystr) : result pystr :=
  if startswith (chars b) "/" then Ok b
  else if bool_decide (chars path = "") || endswith_slash (chars path)
  then py_add path b
  else sep_b ← py_add (Str "/") b; py_add path sep_b.

(** [os.path.join(a, *p)] on strings of either kind. *)
Fixpoint ujoin (a : pystr) (p : list pystr) : result pystr :=
  match p with
  | [] => Ok a
  | b :: p' => path ← ujoin2 a b; ujoin path p'
  end.

(** [(p[:i], p[i:])] for [i = p.rfind('/') + 1]. *)
Fixpoint rsplit (p : string) : string * string :=
  match p with
  | "" => ("", "")
  | String c s =>
      let '(head, tail) := rsplit s in
      if bool_decide (head = "") then
        if is_slash c then (String c "", tail) else ("", String c tail)
      else (String c head, tail)
  end.

(** [os.path.basename(p)] *)
Definition basename (p : string) : string := snd (rsplit p).

(** [s.rstrip('/')] *)
Fixpoint rstrip_slash (s : string) : string :=
  match s with
  | "" => ""
  | String c s' =>
      let r := rstrip_slash s' in
      if bool_decide (r = "") && is_slash c then "" else String c r
  end.

(** [s == '/' * len(s)] *)
Fixpoint all_slashes (s : string) : bool :=
  match s with
  | "" => true
  | String c s' => is_slash c && all_slashes s'
  end.

(** [os.path.dirname(p)] *)
Definition dirname (p : string) : string :=
  let head := fst (rsplit p) in
  if negb (bool_decide (head = "")) && negb (all_slashes head)
  then rstrip_slash head
  else head.
End OsPath.

(** ** Parameter values and dictionaries *)

(** [datetime.date] *)
Record date : Type := Date { year : nat; month : nat; day : nat }.

(** Left-pad a decimal numeral with zeros ([%04d], [%02d]). *)
Definition zero_pad (width : nat) (n : nat) : string :=
  let digits := NilZero.string_of_uint (Nat.to_uint n) in
  string_of_list_ascii (repeat "0"%char (width - String.length digits)) +:+ digits.

(** [d.isoformat()], which is also [str(d)] and [format(d, '')]. *)
Definition isoformat (d : date) : string :=
  zero_pad 4 (year d) +:+ "-" +:+ zero_pad 2 (month d) +:+ "-" +:+ zero_pad 2 (day d).

(** The values that occur as task parameters. *)
Inductive value : Type :=
| VStr (s : string)
| VInt (n : Z)
| VDate (d : date).

(** [format(v, '')] as used by the replacement field [{v}]. *)
Definition format_value (v : value) : string :=
  match v with
  | VStr s => s
  | VInt n => str_of_Z n
  | VDate d => isoformat d
  end.

(** A Python dictionary with string keys, in iteration order. *)
Definition dict (V : Type) : Type := list (string * V).

(** [key in d] *)
Definition dict_has {V} (key : string) (d : dict V) : bool :=
  existsb (fun kv => bool_decide (kv.1 = key)) d.

(** [d.get(key)] *)
Fixpoint dict_get {V} (key : string) (d : dict V) : option V :=
  match d with
  | [] => None
  | (k, v) :: d' => if bool_decide (k = key) then Some v else dict_get key d'
  end.

(** [d[key] = v]: an existing key keeps its place, a new key is added. *)
Fixpoint dict_set {V} (key : string) (v : V) (d : dict V) : dict V :=
  match d with
  | [] => [(key, v)]
  | (k, w) :: d' =>
      if bool_decide (k = key) then (k, v) :: d' else (k, w) :: dict_set key v d'
  end.

Definition dict_keys {V} (d : dict V) : list string := map fst d.

(** ** gluish.task *)

(** The state of a task instance: the class attributes [BASE] and [TAG]
    ([None] stands for [NotImplemented]), the name and parameters encoded
    in [task_id], and the [date] attribute of tasks that declare one. *)
Record TaskData : Type := {
  BASE : option string;
  TAG : option string;
  task_name : string;
  task_params : dict value;
  date_attr : option date
}.

(** A [nearest] attribute is either a method of the task or a plain value. *)
Inductive attribute : Type :=
| Method (f : TaskData -> result value)
| Plain (v : value).

(** A task object: its state and its [nearest] attribute, if it has one. *)
Record Task : Type := {
  data :> TaskData;
  nearest_attr : option attribute
}.

(** A callback of [cbmap] receives the task object. *)
Definition callback : Type := Task -> result value.

(** [nearest(obj)] *)
Definition nearest (obj : Task) : result value :=
  match nearest_attr obj with
  | None => Raise (AttributeError "Missing attribute.")
  | Some (Method f) => f obj
  | Some (Plain v) => Ok v
  end.

(** [luigi.task.id_to_name_and_params(self.task_id)]: the task name and
    a new dictionary of the parameters. *)
Definition id_to_name_and_params (self : Task) : string * dict value :=
  (task_name self, task_params self).

Module BaseTask.
(** The loop over [cbmap.iteritems()], updating [task_params] in place. *)
Fixpoint apply_cbmap (self : Task) (cbmap : dict callback)
    (task_params : dict value) : result (dict value) :=
  match cbmap with
  | [] => Ok task_params
  | (key, cb) :: rest =>
      if negb (dict_has key task_params) then apply_cbmap self rest task_params
      else v ← cb self; apply_cbmap self rest (dict_set key v task_params)
  end.

(** The generator ['{k}-{v}'.format(k=k, v=v) for k, v in ...]. *)
Definition parts (task_params : dict value) : list string :=
  map (fun kv => kv.1 +:+ "-" +:+ format_value kv.2) task_params.

(** The file name built from the parameters when none is given. *)
Definition default_filename (task_params : dict value) (ext : string)
    (digest : bool) : string :=
  let name := str_join "-" (sorted (parts task_params)) in
  let name := if bool_decide (String.length name = 0) then "output" else name in
  let name := if digest then SHA1.hexdigest name else name in
  name +:+ "." +:+ ext.

(** The last statement of [path]:
    [os.path.join(unicode(BASE), unicode(TAG), task_name, filename)], where
    [BASE], [TAG], [task_name] and [filename] are byte strings. The result is
    given by its characters; it is a text unless [task_name] or [filename]
    is absolute. *)
Definition joined (base tag task_name filename : string) : result string :=
  base ← unicode (Str base);
  tag ← unicode (Str tag);
  path ← OsPath.ujoin base [tag; Str task_name; Str filename];
  Ok (chars path).
Arguments joined : simpl never.

(** [BaseTask.path(self, filename=None, ext='tsv', digest=False, cbmap=None)] *)
Definition path (self : Task) (filename : option string) (ext : string)
    (digest : bool) (cbmap : option (dict callback)) : result string :=
  match TAG self, BASE self with
  | Some tag, Some base =>
      let cbmap := default [] cbmap in
      let '(task_name, task_params) := id_to_name_and_params self in
      filename ←
        match filename with
        | None =>
            task_params ← apply_cbmap self cbmap task_params;
            Ok (default_filename task_params ext digest)
        | Some filename => Ok filename
        end;
      joined base tag task_name filename
  | _, _ => Raise (RuntimeError "TAG and BASE must be set.")
  end.
End BaseTask.

(** ** The filesystem *)

(** The regular files, by path. Directories are implicit: a path names a
    directory as soon as a file may be created below it, so that
    [os.makedirs] leaves the map unchanged. *)
Abbreviation FileSystem := (gmap string string).

(** Code that reads and writes files: it returns or raises, and leaves a
    filesystem behind in both cases. *)
Definition IO (A : Type) : Type := FileSystem -> result A * FileSystem.

Global Instance IO_ret : MRet IO := fun _ a fs => (Ok a, fs).
Global Instance IO_bind : MBind IO := fun _ _ f m fs =>
  match m fs with
  | (Ok a, fs') => f a fs'
  | (Raise e, fs') => (Raise e, fs')
  end.

Definition lift {A} (r : result A) : IO A := fun fs => (r, fs).

(** [open(path).read()] *)
Definition read_file (path : string) : IO string := fun fs =>
  match fs !! path with
  | Some contents => (Ok contents, fs)
  | None => (Raise (IOError path), fs)
  end.

(** Writing a whole file: the handle of [luigi.LocalTarget.open('w')] puts
    the file in place when it is closed. *)
Definition write_file (path contents : string) : IO unit := fun fs =>
  (Ok tt, <[path := contents]> fs).

(** [os.makedirs(path)] *)
Definition makedirs (path : string) : IO unit := fun fs => (Ok tt, fs).

(** Put [c] in front of the first piece, starting one if there is none. *)
Definition push (c : ascii) (pieces : list string) : list string :=
  match pieces with
  | [] => [String c ""]
  | p :: ps => String c p :: ps
  end.

(** The lines a Python file object iterates over: each ends after its
    newline, the last one possibly without. *)
Fixpoint readlines (s : string) : list string :=
  match s with
  | "" => []
  | String c s' =>
      if is_newline c then String c "" :: readlines s' else push c (readlines s')
  end.

(** [sum(1 for line in open(filename))] *)
Definition line_count (s : string) : nat := length (readlines s).

(** The pieces [split -l n] cuts its input into; [room] is the number of
    lines the current piece can still take. *)
Fixpoint split_go (n room : nat) (s : string) : list string :=
  match s with
  | "" => []
  | String c s' =>
      if is_newline c then
        match room with
        | S (S r) => push c (split_go n (S r) s')
        | _ => String c "" :: split_go n n s'
        end
      else push c (split_go n room s')
  end.

Definition split_l (n : nat) (s : string) : list string := split_go n n s.

(** The two-letter suffixes [aa], [ab], ..., [zz] of POSIX [split]. *)
Definition letter (i : nat) : ascii := ascii_of_nat (97 + i).
Definition posix_suffix (i : nat) : string :=
  String (letter (i / 26)) (String (letter (i mod 26)) "").

(** The files [split] creates when run in [taskdir]: each is named [prefix]
    followed by the suffix of its rank. *)
Definition piece_path (suffix : nat -> string) (taskdir prefix : string)
    (i : nat) : string :=
  OsPath.join taskdir [prefix +:+ suffix i].

Fixpoint write_pieces (path_of : nat -> string) (i : nat) (pieces : list string)
    (fs : FileSystem) : FileSystem :=
  match pieces with
  | [] => fs
  | p :: ps => write_pieces path_of (S i) ps (<[path_of i := p]> fs)
  end.

(** The filesystem once [split], run in [taskdir], has written [pieces]. *)
Definition split_files (suffix : nat -> string) (taskdir prefix : string)
    (pieces : list string) (fs : FileSystem) : FileSystem :=
  write_pieces (piece_path suffix taskdir prefix) 0 pieces fs.

(** The command line of [SplitFile.run]. *)
Definition split_command (taskdir : string) (lines : Z) (input prefix : string)
    : string :=
  "cd " +:+ taskdir +:+ " && split -l " +:+ str_of_Z lines +:+ " " +:+ input
  +:+ " " +:+ prefix.

(** A character that the shell takes as it is, wherever it stands in a
    word: a letter, a digit, or one of [_ . / -]. *)
Definition is_plain_char (c : ascii) : bool :=
  let n := N_of_ascii c in
  ((48 <=? n) && (n <=? 57) || (65 <=? n) && (n <=? 90)
   || (97 <=? n) && (n <=? 122))%N
  || contains c "_./-".

(** A string that the shell reads as one word and hands on unchanged, and
    that no command takes for an option: it is not empty, does not start
    with a dash and holds plain characters only. *)
Definition shell_word (s : string) : bool :=
  negb (bool_decide (s = "")) && negb (startswith s "-")
  && str_forall is_plain_char s.

(** Modelled from the spec: [gluish.utils.shellout] is missing; this is its
    call [shellout("cd {taskdir} && split -l {lines} {input} {prefix}", ...)],
    which "physically splits [filename] into consecutive chunks of
    [lines_per_chunk] records each (last chunk may be shorter), writing them
    under the task's working directory". The values are put into the command
    line as they are, without quotes. When the three strings are shell
    words, the line is [cd] into [taskdir] followed by [split] with these
    arguments: [input] is read from within [taskdir], [split] rejects a
    line count that is not positive and an input it cannot read, and a
    failed command raises. Every other command line is left to [sh]: what
    the shell makes of blanks, quotes, patterns and operators, whether it
    fails and what it does to the files, is not part of the model. [suffix]
    is the naming scheme of the [split] at hand. *)
Definition shellout_split (sh : string -> IO unit) (suffix : nat -> string)
    (taskdir : string) (lines : Z) (input prefix : string) : IO unit :=
  let command := split_command taskdir lines input prefix in
  if shell_word taskdir && shell_word input && shell_word prefix then
    fun fs =>
      if bool_decide (lines <= 0)%Z then (Raise (RuntimeError command), fs)
      else
        match fs !! OsPath.join taskdir [input] with
        | None => (Raise (RuntimeError command), fs)
        | Some contents =>
            (Ok tt, split_files suffix taskdir prefix
                      (split_l (Z.to_nat lines) contents) fs)
        end
  else sh command.

(** [path] lies below [directory]. *)
Definition below (directory path : string) : bool :=
  startswith path (OsPath.join directory [""]).

(** [os.path.exists(path)]: a file, or a directory that holds one. *)
Definition path_exists (path : string) : IO bool := fun fs =>
  (Ok (bool_decide (is_Some (fs !! path))
       || existsb (below path) (map_to_list fs).*1), fs).

(** Modelled from the spec: [gluish.path.iterfiles] is missing; it
    enumerates the paths of the files below [directory], in no particular
    order. *)
Definition iterfiles (directory : string) : IO (list string) := fun fs =>
  (Ok (List.filter (below directory) (map_to_list fs).*1), fs).

(** Modelled from the spec: [write_tsv] of [gluish.format.TSV] is missing;
    the manifest has "one absolute file path per line". *)
Definition write_tsv (path : string) : string := path +:+ nl.

(** ** gluish.common *)

Module SplitFile.
Record t : Type := { filename : string; chunks : Z }.

(** The task object of a [SplitFile]: [CommonTask] sets [BASE] to
    [tempfile.gettempdir()], here [tmpdir], and [TAG] to ['common']. *)
Definition task (tmpdir : string) (self : t) : Task :=
  {| data := {| BASE := Some tmpdir;
                TAG := Some "common";
                task_name := "SplitFile";
                task_params := [("filename", VStr (filename self));
                                ("chunks", VStr (str_of_Z (chunks self)))];
                date_attr := None |};
     nearest_attr := None |}.

(** [self.output().fn] *)
Definition output (tmpdir : string) (self : t) : result string :=
  BaseTask.path (task tmpdir self) None "tsv" true None.

(** [int((line_count + self.chunks) / self.chunks)] *)
Definition lines_per_chunk (line_count : nat) (chunks : Z) : result Z :=
  py_div (Z.of_nat line_count + chunks) chunks.

(** The paths written to the manifest: the sorted listing of [taskdir],
    restricted to the base names that start with [prefix]. *)
Definition manifest_paths (prefix : string) (listing : list string)
    : list string :=
  List.filter (fun path => startswith (OsPath.basename path) prefix)
              (sorted listing).

(** [SplitFile.run(self)]. [prefix] is the value of [random_string()], of
    the missing [gluish.utils]: "a randomized filename prefix unique to this
    invocation"; [sh] and [suffix] are those of [shellout_split]. *)
Definition run (sh : string -> IO unit) (suffix : nat -> string)
    (tmpdir : string) (self : t) (prefix : string) : IO unit :=
  contents ← read_file (filename self);
  lines ← lift (lines_per_chunk (line_count contents) (chunks self));
  out ← lift (output tmpdir self);
  let taskdir := OsPath.dirname out in
  found ← path_exists taskdir;
  (if negb found then makedirs taskdir else mret tt);;
  shellout_split sh suffix taskdir lines (filename self) prefix;;
  listing ← iterfiles taskdir;
  out ← lift (output tmpdir self);
  write_file out (cat (map write_tsv (manifest_paths prefix listing))).
End SplitFile.

(** The contents of the files at [paths], concatenated; [None] when one of
    them is missing. *)
Definition cat_files (fs : FileSystem) (paths : list string) : option string :=
  cat <$> mapM (fun path => fs !! path) paths.

(** The execution environment of [Executable]: the directories of the
    search path and the files that can be executed. *)
Record Env : Type := { PATH : list string; is_exe : string -> bool }.

(** Modelled from the spec: [gluish.path.which] is missing; it "queries the
    host environment's executable search mechanism for a named binary" and
    is [None] when the name is not resolvable. *)
Definition which (env : Env) (program : string) : option string :=
  List.find (is_exe env) (map (fun dir => OsPath.join dir [program]) (PATH env)).

Module Executable.
Record t : Type := { name : string; message : string }.

(** [Executable.run(self)] *)
Definition run (self : t) : result unit :=
  Raise (RuntimeError
           ("External app " +:+ name self +:+ " required." +:+ nl +:+ message self)).

(** [Executable.complete(self)] *)
Definition complete (env : Env) (self : t) : bool :=
  bool_decide (which env (name self) <> None).
End Executable.

(** ** Vocabulary of the properties *)

(** The task [self], its parameters listed as [params]. *)
Definition with_params (self : Task) (params : dict value) : Task :=
  {| data := {| BASE := BASE self; TAG := TAG self; task_name := task_name self;
                task_params := params; date_attr := date_attr self |};
     nearest_attr := nearest_attr self |}.

(** Two results that agree up to [R] on returned values. *)
Definition result_rel {A} (R : relation A) (r1 r2 : result A) : Prop :=
  match r1, r2 with
  | Ok a1, Ok a2 => R a1 a2
  | Raise e1, Raise e2 => e1 = e2
  | _, _ => False
  end.

(** The first day of the month of [d]. *)
Definition month_start (d : date) : date := Date (year d) (month d) 1.

(** The program can find [program] in a directory of the search path. *)
Definition resolvable (env : Env) (program : string) : Prop :=
  exists dir, dir ∈ PATH env /\ is_exe env (OsPath.join dir [program]) = true.

(** The paths of the first [n] files that [split] creates. *)
Definition piece_paths (suffix : nat -> string) (taskdir prefix : string)
    (n : nat) : list string :=
  piece_path suffix taskdir prefix <$> seq 0 n.

(** [path] would be taken for a piece: it lies below [taskdir] and its base
    name starts with [prefix]. *)
Definition clash (taskdir prefix path : string) : bool :=
  below taskdir path && startswith (OsPath.basename path) prefix.

(** One more line in the first piece, starting one if there is none. *)
Definition bump (sizes : list nat) : list nat :=
  match sizes with
  | [] => [1]
  | n :: sizes' => S n :: sizes'
  end.

(** The number of lines in each piece of [split -l n], for an input of
    [total] lines; [room] is as in [split_go]. *)
Fixpoint piece_sizes (n room total : nat) : list nat :=
  match total with
  | O => []
  | S total' =>
      match room with
      | S (S r) => bump (piece_sizes n (S r) total')
      | _ => 1 :: piece_sizes n n total'
      end
  end.

(** ** Example objects *)

Module Examples.
(** The task of the docstring of [BaseTask.path]: any date is mapped to
    the first day of its month. *)
Definition first_of_month (self : TaskData) : result value :=
  match date_attr self with
  | Some d => Ok (VDate (month_start d))
  | None => Raise (AttributeError "date")
  end.

Definition example_task (d : date) (params : dict value) : Task :=
  {| data := {| BASE := Some "/tmp"; TAG := Some "t";
                task_name := "ExampleTask"; task_params := params;
                date_attr := Some d |};
     nearest_attr := Some (Method first_of_month) |}.

Definition jan05 : Task :=
  example_task (Date 2020 1 5)
    [("date", VStr "2020-01-05"); ("kind", VStr "full")].
Definition jan20 : Task :=
  example_task (Date 2020 1 20)
    [("kind", VStr "full"); ("date", VStr "2020-01-20")].

(** A task that declares a date but has no [nearest]. *)
Definition no_nearest : Task :=
  {| data := data jan05; nearest_attr := None |}.

(** A task whose class sets neither [BASE] nor [TAG]. *)
Definition unconfigured : Task :=
  {| data := {| BASE := None; TAG := None; task_name := "Bare";
                task_params := []; date_attr := None |};
     nearest_attr := None |}.

Definition four_lines : string :=
  "a" +:+ nl +:+ "b" +:+ nl +:+ "c" +:+ nl +:+ "d".
Definition hundred_lines : string := cat (repeat ("x" +:+ nl) 100).

Definition split2 : SplitFile.t :=
  {| SplitFile.filename := "/data/in.txt"; SplitFile.chunks := 2 |}.
Definition split0 : SplitFile.t :=
  {| SplitFile.filename := "/data/in.txt"; SplitFile.chunks := 0 |}.
Definition split_neg : SplitFile.t :=
  {| SplitFile.filename := "/data/in.txt"; SplitFile.chunks := -1 |}.

Definition disk (contents : string) : FileSystem := {[ "/data/in.txt" := contents ]}.

(** A shell on which every command line fails. *)
Definition no_shell (command : string) : IO unit :=
  lift (Raise (RuntimeError command)).
End Examples.

(** ** Further vocabulary and examples *)

(** A lowercase hexadecimal digit. *)
Definition is_hexdigit (c : ascii) : bool := contains c "0123456789abcdef".

Module MoreExamples.
(** The manifest of [Examples.split2] under ["/tmp"]. *)
Definition manifest2 : string :=
  "/tmp/common/SplitFile/2e4362d1f922b3de6c2d82fa6ff42e72b2d05a68.tsv".

(** The manifest of [Examples.split_neg] under ["/tmp"]. *)
Definition manifest_neg : string :=
  "/tmp/common/SplitFile/a84256859808e895cd6c88eba88b780f5b667f7d.tsv".

(** A file of the working directory, named by a relative path, and a
    filesystem in which the task directory holds another file of that name. *)
Definition split_rel : SplitFile.t :=
  {| SplitFile.filename := "in.txt"; SplitFile.chunks := 2 |}.
Definition shadowed : FileSystem :=
  {[ "in.txt" := Examples.four_lines;
     "/tmp/common/SplitFile/in.txt" := "x" +:+ nl ]}.

(** A file whose name holds a blank. *)
Definition split_blank : SplitFile.t :=
  {| SplitFile.filename := "/data/my file.txt"; SplitFile.chunks := 2 |}.

(** A file whose name ends a command: the shell reads
    [split -l -3 /data/in.txt;true XYZ] as two commands and reports the
    status of the second, 0. *)
Definition split_two_commands : SplitFile.t :=
  {| SplitFile.filename := "/data/in.txt;true"; SplitFile.chunks := -1 |}.

(** A shell on which every command line succeeds and changes no file. *)
Definition exit_zero (command : string) : IO unit := mret tt.

(** A temporary directory whose name is not ASCII: the two bytes are the
    UTF-8 encoding of U+00E9. *)
Definition tmp_utf8 : string :=
  "/tmp/caf" +:+ String (ascii_of_nat 195) (String (ascii_of_nat 169) "").

(** A rule that always fails. *)
Definition failing : callback := fun _ => Raise (AttributeError "no such attribute").

(** A rule with a fixed value. *)
Definition constant (v : value) : callback := fun _ => Ok v.
End MoreExamples.

(** * Properties *)

(** ** Sorting *)

Lemma sorted_Sorted (ls : list string) : Sorted String.le (sorted ls).
Proof. apply (Sorted_merge_sort String.le). Qed.

Lemma sorted_Permutation (ls : list string) : sorted ls ≡ₚ ls.
Proof. apply (merge_sort_Permutation String.le). Qed.

Lemma sorted_unique (l1 l2 : list string) :
  l1 ≡ₚ l2 -> Sorted String.le l2 -> sorted l1 = l2.
Proof.
  intros Hperm Hsorted.
  apply (Sorted_unique String.le); [apply sorted_Sorted | done |].
  by rewrite sorted_Permutation.
Qed.

Lemma sorted_perm_eq (l1 l2 : list string) : l1 ≡ₚ l2 -> sorted l1 = sorted l2.
Proof.
  intros Hperm. apply sorted_unique; [|apply sorted_Sorted].
  by rewrite sorted_Permutation.
Qed.

(** ** Dictionaries *)

Section dict.
Context {V : Type}.
Implicit Types (d : dict V) (k key : string) (v : V).

Lemma dict_has_elem_of key d : dict_has key d = true <-> key ∈ dict_keys d.
Proof.
  unfold dict_has, dict_keys. rewrite existsb_exists, list_elem_of_fmap.
  split.
  - intros ([k v] & Hin & Heq). apply bool_decide_eq_true in Heq.
    exists (k, v). split; [done | by apply list_elem_of_In].
  - intros ([k v] & -> & Hin). exists (k, v).
    split; [by apply list_elem_of_In | by apply bool_decide_eq_true].
Qed.

Lemma dict_has_perm key d1 d2 : d1 ≡ₚ d2 -> dict_has key d1 = dict_has key d2.
Proof.
  intros Hperm. apply eq_true_iff_eq. rewrite !dict_has_elem_of.
  unfold dict_keys. by rewrite Hperm.
Qed.

Lemma dict_keys_set key v d :
  dict_has key d = true -> dict_keys (dict_set key v d) = dict_keys d.
Proof.
  induction d as [|[k w] d IH]; simpl; [done|].
  case_bool_decide; simpl; [by subst | intros Hin; f_equal; auto].
Qed.

Lemma dict_has_set key k v d :
  dict_has key d = true -> dict_has k (dict_set key v d) = dict_has k d.
Proof.
  intros Hin. apply eq_true_iff_eq.
  by rewrite !dict_has_elem_of, dict_keys_set.
Qed.

Lemma dict_get_set key k v d :
  dict_get k (dict_set key v d) =
  if bool_decide (k = key) then Some v else dict_get k d.
Proof.
  induction d as [|[k' w] d IH]; simpl.
  - repeat case_bool_decide; congruence.
  - repeat (case_bool_decide; simpl); congruence.
Qed.

Lemma dict_get_Some k v d :
  NoDup (dict_keys d) -> dict_get k d = Some v <-> (k, v) ∈ d.
Proof.
  induction d as [|[k' w] d IH]; simpl; intros Hnd.
  - split; [done | by intros ?%elem_of_nil].
  - apply NoDup_cons in Hnd as [Hk' Hnd]. rewrite elem_of_cons.
    case_bool_decide as Hk.
    + subst k'. split; [intros [= ->]; by left|].
      intros [[= ->]|Hin]; [done|].
      destruct Hk'. apply list_elem_of_fmap. by exists (k, v).
    + rewrite IH by done. split; [by right|].
      intros [[= -> ->]|Hin]; done.
Qed.

Lemma dict_NoDup d : NoDup (dict_keys d) -> NoDup d.
Proof. apply NoDup_fmap_1. Qed.

(** Two dictionaries with the same entries list them in some order. *)
Lemma dict_ext_perm d1 d2 :
  NoDup (dict_keys d1) -> NoDup (dict_keys d2) ->
  (forall k, dict_get k d1 = dict_get k d2) -> d1 ≡ₚ d2.
Proof.
  intros Hnd1 Hnd2 Hget.
  apply NoDup_Permutation; [by apply dict_NoDup..|].
  intros [k v]. by rewrite <- !dict_get_Some, Hget.
Qed.

Lemma dict_get_perm k d1 d2 :
  NoDup (dict_keys d1) -> d1 ≡ₚ d2 -> dict_get k d1 = dict_get k d2.
Proof.
  intros Hnd1 Hperm.
  assert (NoDup (dict_keys d2)) as Hnd2.
  { unfold dict_keys. by rewrite <- Hperm. }
  apply option_eq. intros v. by rewrite !dict_get_Some, Hperm.
Qed.

Lemma dict_set_perm key v d1 d2 :
  NoDup (dict_keys d1) -> dict_has key d1 = true -> d1 ≡ₚ d2 ->
  dict_set key v d1 ≡ₚ dict_set key v d2.
Proof.
  intros Hnd1 Hin Hperm.
  assert (NoDup (dict_keys d2)) as Hnd2.
  { unfold dict_keys. by rewrite <- Hperm. }
  assert (dict_has key d2 = true) as Hin2.
  { by rewrite <- (dict_has_perm key d1 d2). }
  apply dict_ext_perm.
  - by rewrite dict_keys_set.
  - by rewrite dict_keys_set.
  - intros k. rewrite !dict_get_set. case_bool_decide; [done|].
    by apply dict_get_perm.
Qed.
End dict.

(** ** The canonical path *)

Lemma parts_perm (d1 d2 : dict value) :
  d1 ≡ₚ d2 -> BaseTask.parts d1 ≡ₚ BaseTask.parts d2.
Proof. intros Hperm. unfold BaseTask.parts. by rewrite Hperm. Qed.

Lemma default_filename_perm (d1 d2 : dict value) ext digest :
  d1 ≡ₚ d2 ->
  BaseTask.default_filename d1 ext digest = BaseTask.default_filename d2 ext digest.
Proof.
  intros Hperm. unfold BaseTask.default_filename.
  by rewrite (sorted_perm_eq _ _ (parts_perm _ _ Hperm)).
Qed.

Lemma apply_cbmap_keys self cbmap d d' :
  BaseTask.apply_cbmap self cbmap d = Ok d' -> dict_keys d' = dict_keys d.
Proof.
  revert d. induction cbmap as [|[key cb] rest IH]; simpl; intros d.
  - by intros [= ->].
  - destruct (dict_has key d) eqn:Hin; simpl; [|by apply IH].
    destruct (cb self) as [v|e]; simpl; [|done].
    intros Heq. apply IH in Heq. by rewrite Heq, dict_keys_set.
Qed.

Lemma apply_cbmap_perm self1 self2 cbmap d1 d2 :
  Forall (fun kc => kc.2 self1 = kc.2 self2) cbmap ->
  NoDup (dict_keys d1) -> d1 ≡ₚ d2 ->
  result_rel (≡ₚ) (BaseTask.apply_cbmap self1 cbmap d1)
                  (BaseTask.apply_cbmap self2 cbmap d2).
Proof.
  intros Hcb. revert d1 d2.
  induction Hcb as [|[key cb] rest Hkc Hrest IH]; simpl; intros d1 d2 Hnd Hperm.
  - done.
  - simpl in Hkc. rewrite <- (dict_has_perm key d1 d2 Hperm), <- Hkc.
    destruct (dict_has key d1) eqn:Hin; simpl; [|by apply IH].
    destruct (cb self1) as [v|e]; simpl; [|done].
    apply IH.
    + by rewrite dict_keys_set.
    + by apply dict_set_perm.
Qed.

Lemma path_unfold self ext digest cbmap :
  BaseTask.path self None ext digest cbmap =
  match TAG self, BASE self with
  | Some tag, Some base =>
      d ← BaseTask.apply_cbmap self (default [] cbmap) (task_params self);
      BaseTask.joined base tag (task_name self)
        (BaseTask.default_filename d ext digest)
  | _, _ => Raise (RuntimeError "TAG and BASE must be set.")
  end.
Proof.
  unfold BaseTask.path, id_to_name_and_params.
  destruct (TAG self), (BASE self); try done.
  by destruct (BaseTask.apply_cbmap _ _ _).
Qed.

Lemma path_explicit self filename ext digest cbmap :
  BaseTask.path self (Some filename) ext digest cbmap =
  match TAG self, BASE self with
  | Some tag, Some base => BaseTask.joined base tag (task_name self) filename
  | _, _ => Raise (RuntimeError "TAG and BASE must be set.")
  end.
Proof. done. Qed.

(** ** Byte strings and texts *)

Lemma str_forall_app (f : ascii -> bool) (s t : string) :
  str_forall f (s +:+ t) = str_forall f s && str_forall f t.
Proof.
  induction s as [|c s IH]; [done|].
  change (String c s +:+ t) with (String c (s +:+ t)). simpl.
  by rewrite IH, andb_assoc.
Qed.

Lemma is_ascii_app (s t : string) : is_ascii (s +:+ t) = is_ascii s && is_ascii t.
Proof. apply str_forall_app. Qed.

Lemma py_add_chars (a b r : pystr) :
  py_add a b = Ok r -> chars r = chars a +:+ chars b.
Proof.
  destruct a as [s|s], b as [t|t]; unfold py_add, decode, mbind, result_bind;
    [|destruct (is_ascii s)|destruct (is_ascii t)|]; try done;
    by intros [= <-].
Qed.

Lemma py_add_ascii (a b : pystr) :
  is_ascii (chars a) = true -> is_ascii (chars b) = true ->
  exists r, py_add a b = Ok r /\ is_ascii (chars r) = true.
Proof.
  intros Ha Hb.
  assert (is_ascii (chars a +:+ chars b) = true) as Hab
    by (by rewrite is_ascii_app, Ha, Hb).
  destruct a as [s|s], b as [t|t]; unfold py_add, decode, mbind, result_bind;
    simpl in *; rewrite ?Ha, ?Hb; by eexists.
Qed.

(** What [os.path.join] returns on strings of either kind is what it
    returns on their characters. *)
Lemma ujoin2_chars (a b r : pystr) :
  OsPath.ujoin2 a b = Ok r -> chars r = OsPath.join2 (chars a) (chars b).
Proof.
  unfold OsPath.ujoin2, OsPath.join2.
  destruct (startswith (chars b) "/"); [by intros [= <-]|].
  destruct (_ || _); [apply py_add_chars|].
  destruct (py_add (Str "/") b) as [sb|e] eqn:Hsb;
    unfold mbind, result_bind; [|done].
  intros Hr. apply py_add_chars in Hsb, Hr. by rewrite Hr, Hsb.
Qed.

Lemma ujoin_chars (p : list pystr) (a r : pystr) :
  OsPath.ujoin a p = Ok r -> chars r = OsPath.join (chars a) (map chars p).
Proof.
  revert a. induction p as [|b p IH]; intros a; [by intros [= <-]|].
  cbn [OsPath.ujoin]. destruct (OsPath.ujoin2 a b) as [path|e] eqn:Hab;
    unfold mbind, result_bind; [|done].
  intros Hr. rewrite (IH _ Hr), (ujoin2_chars _ _ _ Hab). done.
Qed.

Lemma ujoin2_ascii (a b : pystr) :
  is_ascii (chars a) = true -> is_ascii (chars b) = true ->
  exists r, OsPath.ujoin2 a b = Ok r /\ is_ascii (chars r) = true.
Proof.
  intros Ha Hb. unfold OsPath.ujoin2.
  destruct (startswith (chars b) "/"); [by exists b|].
  destruct (_ || _); [by apply py_add_ascii|].
  destruct (py_add_ascii (Str "/") b eq_refl Hb) as (sb & -> & Hsb).
  by apply py_add_ascii.
Qed.

Lemma ujoin_ascii (p : list pystr) (a : pystr) :
  is_ascii (chars a) = true -> Forall (fun b => is_ascii (chars b) = true) p ->
  exists r, OsPath.ujoin a p = Ok r.
Proof.
  intros Ha Hp. revert a Ha.
  induction Hp as [|b p Hb Hp IH]; intros a Ha; [by exists a|].
  cbn [OsPath.ujoin].
  destruct (ujoin2_ascii a b Ha Hb) as (path & -> & Hpath).
  by apply IH.
Qed.

(** A path that [BaseTask.path] returns is the join of its components. *)
Lemma joined_Ok (base tag name filename p : string) :
  BaseTask.joined base tag name filename = Ok p ->
  p = OsPath.join base [tag; name; filename].
Proof.
  unfold BaseTask.joined, unicode, decode, mbind, result_bind.
  destruct (is_ascii base); [|done]. destruct (is_ascii tag); [|done].
  destruct (OsPath.ujoin _ _) as [r|e] eqn:Hr; [|done].
  intros [= <-]. by apply ujoin_chars in Hr.
Qed.

(** It is returned when the components are ASCII. *)
Lemma joined_ascii (base tag name filename : string) :
  is_ascii base = true -> is_ascii tag = true -> is_ascii name = true ->
  is_ascii filename = true ->
  BaseTask.joined base tag name filename
  = Ok (OsPath.join base [tag; name; filename]).
Proof.
  intros Hbase Htag Hname Hfile.
  destruct (ujoin_ascii [Unicode tag; Str name; Str filename] (Unicode base))
    as [r Hr]; [done | by repeat constructor |].
  pose proof (ujoin_chars _ _ _ Hr) as Hchars.
  unfold BaseTask.joined, unicode, decode, mbind, result_bind.
  rewrite Hbase, Htag, Hr. by rewrite Hchars.
Qed.

(** An absolute file name is returned as it is, decoded or not. *)
Lemma joined_absolute (base tag name filename : string) :
  is_ascii base = true -> is_ascii tag = true -> is_ascii name = true ->
  startswith filename "/" = true ->
  BaseTask.joined base tag name filename = Ok filename.
Proof.
  intros Hbase Htag Hname Habs.
  destruct (ujoin2_ascii (Unicode base) (Unicode tag)) as (r1 & Hr1 & H1);
    [done..|].
  destruct (ujoin2_ascii r1 (Str name)) as (r2 & Hr2 & H2); [done..|].
  unfold BaseTask.joined, unicode, decode, mbind, result_bind.
  rewrite Hbase, Htag. cbn [OsPath.ujoin]. unfold mbind, result_bind.
  rewrite Hr1, Hr2. unfold OsPath.ujoin2. cbn [chars]. by rewrite Habs.
Qed.

(** C2. Determinism of [BaseTask.path]. The path built for a task is a
    function of [BASE], [TAG], the task name, the normalized parameters as a
    mapping, the extension and the digest flag: two calls that agree on these
    return the same string, whatever else differs between the two tasks and
    their callbacks, and in whatever order the parameters are iterated. *)
Theorem path_deterministic (t1 t2 : Task)
    (cbmap1 cbmap2 : option (dict callback)) (np1 np2 : dict value)
    (ext : string) (digest : bool) :
  BASE t1 = BASE t2 -> TAG t1 = TAG t2 -> task_name t1 = task_name t2 ->
  BaseTask.apply_cbmap t1 (default [] cbmap1) (task_params t1) = Ok np1 ->
  BaseTask.apply_cbmap t2 (default [] cbmap2) (task_params t2) = Ok np2 ->
  np1 ≡ₚ np2 ->
  BaseTask.path t1 None ext digest cbmap1 = BaseTask.path t2 None ext digest cbmap2.
Proof.
  intros HB HT HN H1 H2 Hperm. rewrite !path_unfold.
  rewrite HB, HT, HN, H1, H2. unfold mbind, result_bind.
  by rewrite (default_filename_perm np1 np2).
Qed.

(** C3. Order independence. Listing the parameters of a task in another
    order does not change the result of [BaseTask.path]: the ["key-value"]
    strings are sorted before they are joined. The dictionary has each key
    once, and the callbacks of [cbmap], if any, return for the task what they
    return for it with its parameters listed in the other order: they read
    the task, not the iteration order of the dictionary made by [path]. *)
Theorem path_order_independent (self : Task) (params : dict value)
    (filename : option string) (ext : string) (digest : bool)
    (cbmap : option (dict callback)) :
  NoDup (dict_keys (task_params self)) ->
  params ≡ₚ task_params self ->
  Forall (fun kc => kc.2 (with_params self params) = kc.2 self)
         (default [] cbmap) ->
  BaseTask.path (with_params self params) filename ext digest cbmap =
  BaseTask.path self filename ext digest cbmap.
Proof.
  intros Hnd Hperm Hblind. destruct filename as [filename|]; [done|].
  rewrite !path_unfold. simpl.
  destruct (TAG self) as [tag|], (BASE self) as [base|]; try done.
  assert (result_rel (≡ₚ)
            (BaseTask.apply_cbmap (with_params self params) (default [] cbmap) params)
            (BaseTask.apply_cbmap self (default [] cbmap) (task_params self)))
    as Hrel.
  { apply apply_cbmap_perm; [done| |done].
    unfold dict_keys. by rewrite Hperm. }
  destruct (BaseTask.apply_cbmap (with_params self params) _ _) as [d1|e1],
           (BaseTask.apply_cbmap self _ _) as [d2|e2]; simpl in *; try done.
  - by rewrite (default_filename_perm d1 d2).
  - by subst.
Qed.

(** C7. Unset [BASE] or [TAG]. Every call of [BaseTask.path] on a task whose
    [BASE] or [TAG] is [NotImplemented] raises
    [RuntimeError('TAG and BASE must be set.')], whatever its arguments. *)
Theorem path_misconfigured (self : Task) (filename : option string)
    (ext : string) (digest : bool) (cbmap : option (dict callback)) :
  BASE self = None \/ TAG self = None ->
  BaseTask.path self filename ext digest cbmap =
  Raise (RuntimeError "TAG and BASE must be set.").
Proof.
  unfold BaseTask.path. intros [-> | ->]; [by destruct (TAG self) | done].
Qed.

(** C10. Explicit file name. With [filename] given, [ext], [digest] and
    [cbmap] have no effect on the result of [BaseTask.path] and no callback
    is called: after the check of [BASE] and [TAG] the result is that of
    [os.path.join(unicode(BASE), unicode(TAG), task_name, filename)]. A path
    that is returned is [join(BASE, TAG, task_name, filename)], and it is
    returned when the four strings are ASCII; a byte above 127 in [BASE] or
    [TAG], or in a relative component joined to them, raises
    [UnicodeDecodeError] instead. *)
Theorem path_explicit_filename (self : Task) (filename ext : string)
    (digest : bool) (cbmap : option (dict callback)) :
  (forall ext' digest' cbmap',
     BaseTask.path self (Some filename) ext' digest' cbmap' =
     BaseTask.path self (Some filename) ext digest cbmap)
  /\ BaseTask.path self (Some filename) ext digest cbmap =
     match TAG self, BASE self with
     | Some tag, Some base => BaseTask.joined base tag (task_name self) filename
     | _, _ => Raise (RuntimeError "TAG and BASE must be set.")
     end
  /\ (forall p,
        BaseTask.path self (Some filename) ext digest cbmap = Ok p ->
        exists tag base,
          TAG self = Some tag /\ BASE self = Some base
          /\ p = OsPath.join base [tag; task_name self; filename])
  /\ (forall tag base,
        TAG self = Some tag -> BASE self = Some base ->
        is_ascii base = true -> is_ascii tag = true ->
        is_ascii (task_name self) = true -> is_ascii filename = true ->
        BaseTask.path self (Some filename) ext digest cbmap
        = Ok (OsPath.join base [tag; task_name self; filename])).
Proof.
  split; [done|]. split; [done|]. rewrite path_explicit. split.
  - intros p. destruct (TAG self) as [tag|], (BASE self) as [base|]; try done.
    intros Hp%joined_Ok. by exists tag, base.
  - intros tag base -> -> Hbase Htag Hname Hfile. by apply joined_ascii.
Qed.

Lemma dict_get_None {V} (k : string) (d : dict V) :
  dict_has k d = false -> dict_get k d = None.
Proof.
  induction d as [|[k' w] d IH]; simpl; [done|].
  case_bool_decide; simpl; [done | apply IH].
Qed.

(** C5. Normalization collapse. Two tasks that agree on [BASE], [TAG], name
    and every parameter but ["date"], whose dates fall in the same month,
    get the same path under a rule for ["date"] that maps the date of a task
    to the first day of its month. *)
Theorem path_normalization_collapse (t1 t2 : Task) (d1 d2 : date)
    (rule : callback) (ext : string) (digest : bool) :
  BASE t1 = BASE t2 -> TAG t1 = TAG t2 -> task_name t1 = task_name t2 ->
  NoDup (dict_keys (task_params t1)) -> NoDup (dict_keys (task_params t2)) ->
  (forall k, k <> "date" ->
     dict_get k (task_params t1) = dict_get k (task_params t2)) ->
  dict_has "date" (task_params t1) = dict_has "date" (task_params t2) ->
  date_attr t1 = Some d1 -> date_attr t2 = Some d2 ->
  year d1 = year d2 -> month d1 = month d2 ->
  rule t1 = Ok (VDate (month_start d1)) ->
  rule t2 = Ok (VDate (month_start d2)) ->
  BaseTask.path t1 None ext digest (Some [("date", rule)]) =
  BaseTask.path t2 None ext digest (Some [("date", rule)]).
Proof.
  intros HB HT HN Hnd1 Hnd2 Hget Hhas Hd1 Hd2 Hy Hm Hrule1 Hrule2.
  rewrite !path_unfold. simpl. rewrite HB, HT, HN, Hhas, Hrule1, Hrule2.
  assert (month_start d1 = month_start d2) as ->.
  { unfold month_start. by rewrite Hy, Hm. }
  destruct (TAG t2) as [tag|], (BASE t2) as [base|]; try done.
  destruct (dict_has "date" (task_params t2)) eqn:Hin; simpl.
  - rewrite (default_filename_perm
               (dict_set "date" (VDate (month_start d2)) (task_params t1))
               (dict_set "date" (VDate (month_start d2)) (task_params t2)));
      [done|].
    apply dict_ext_perm.
    + by rewrite dict_keys_set by congruence.
    + by rewrite dict_keys_set.
    + intros k. rewrite !dict_get_set. case_bool_decide; [done | by apply Hget].
  - rewrite (default_filename_perm (task_params t1) (task_params t2)); [done|].
    apply dict_ext_perm; [done..|].
    intros k. destruct (decide (k = "date")) as [->|Hk]; [|by apply Hget].
    rewrite !dict_get_None; [done | done | congruence].
Qed.

(** A rule that raises for a parameter of the task makes the loop raise:
    its error, or that of a rule visited before it. *)
Lemma apply_cbmap_raises (obj : Task) (key : string) (cb : callback)
    (cbmap : dict callback) (e : exn) (d : dict value) :
  (key, cb) ∈ cbmap -> cb obj = Raise e -> dict_has key d = true ->
  exists e', BaseTask.apply_cbmap obj cbmap d = Raise e'
    /\ exists k cb', (k, cb') ∈ cbmap /\ cb' obj = Raise e'.
Proof.
  intros Hin Hcb. revert d.
  induction cbmap as [|[key' cb'] rest IH]; simpl; intros d Hhas.
  - by apply elem_of_nil in Hin.
  - apply elem_of_cons in Hin as [[= <- <-]|Hin].
    + rewrite Hhas, Hcb. simpl. exists e. split; [done|].
      exists key, cb. split; [by left | done].
    + assert (forall d', dict_has key d' = true ->
                exists e', BaseTask.apply_cbmap obj rest d' = Raise e'
                  /\ exists k cb'', (k, cb'') ∈ (key', cb') :: rest
                                    /\ cb'' obj = Raise e') as IH'.
      { intros d' Hd'. destruct (IH Hin d' Hd') as (e' & He' & k & cb'' & Hk & Hcb'').
        exists e'. split; [done|]. exists k, cb''. split; [by right | done]. }
      destruct (dict_has key' d) eqn:Hhas'; simpl; [|by apply IH'].
      destruct (cb' obj) as [v|e'] eqn:Hcb'; simpl.
      * apply IH'. by rewrite dict_has_set.
      * exists e'. split; [done|]. exists key', cb'. split; [by left | done].
Qed.

(** C6, as amended. Missing [nearest]. For a task without a [nearest]
    attribute, [nearest] raises [AttributeError('Missing attribute.')]. A
    rule that uses it for a parameter that the task has makes the
    normalization raise that error instead of keeping the raw value, and
    [BaseTask.path], called without a file name, returns no path: with that
    rule alone it raises the error of [nearest] once [BASE] and [TAG] are
    checked, and with more rules it raises the configuration error or the
    error of a rule of [cbmap]. *)
Theorem nearest_missing_fails (obj : Task) (key : string)
    (cbmap : dict callback) (ext : string) (digest : bool) :
  nearest_attr obj = None ->
  dict_has key (task_params obj) = true ->
  (key, nearest) ∈ cbmap ->
  nearest obj = Raise (AttributeError "Missing attribute.")
  /\ BaseTask.apply_cbmap obj [(key, nearest)] (task_params obj) =
     Raise (AttributeError "Missing attribute.")
  /\ BaseTask.path obj None ext digest (Some [(key, nearest)]) =
     match TAG obj, BASE obj with
     | Some _, Some _ => Raise (AttributeError "Missing attribute.")
     | _, _ => Raise (RuntimeError "TAG and BASE must be set.")
     end
  /\ exists e,
       BaseTask.path obj None ext digest (Some cbmap) = Raise e
       /\ (e = RuntimeError "TAG and BASE must be set."
           \/ exists k cb, (k, cb) ∈ cbmap /\ cb obj = Raise e).
Proof.
  intros Hattr Hkey Hin.
  assert (nearest obj = Raise (AttributeError "Missing attribute.")) as Hn.
  { unfold nearest. by rewrite Hattr. }
  assert (BaseTask.apply_cbmap obj [(key, nearest)] (task_params obj)
          = Raise (AttributeError "Missing attribute.")) as Hloop.
  { simpl. by rewrite Hkey, Hn. }
  split; [done|]. split; [done|]. split.
  - rewrite path_unfold. change (default [] (Some [(key, nearest)]))
      with [(key, nearest)]. rewrite Hloop.
    by destruct (TAG obj), (BASE obj).
  - rewrite path_unfold. change (default [] (Some cbmap)) with cbmap.
    destruct (TAG obj), (BASE obj); try (eexists; split; [done | by left]).
    destruct (apply_cbmap_raises obj key nearest cbmap _ (task_params obj)
                Hin Hn Hkey) as (e' & -> & Hrule).
    exists e'. split; [done | by right].
Qed.

(** ** Executable *)

Lemma find_is_Some {A} (f : A -> bool) (l : list A) :
  List.find f l <> None <-> exists x, x ∈ l /\ f x = true.
Proof.
  split.
  - destruct (List.find f l) as [x|] eqn:Hfind; [|done].
    intros _. apply find_some in Hfind as [Hin Hfx].
    exists x. split; [by apply list_elem_of_In | done].
  - intros (x & Hin & Hfx) Hnone.
    apply list_elem_of_In in Hin.
    by rewrite (find_none f l Hnone x Hin) in Hfx.
Qed.

(** C9. [Executable]. [complete()] is true exactly when the name is
    resolvable in the search path of the environment, and [run()] always
    raises a [RuntimeError] whose message starts with ["External app "]
    followed by the name of the program. *)
Theorem executable_contract (env : Env) (self : Executable.t) :
  (Executable.complete env self = true <-> resolvable env (Executable.name self))
  /\ Executable.run self
     = Raise (RuntimeError ("External app " +:+ Executable.name self
                            +:+ " required." +:+ nl +:+ Executable.message self)).
Proof.
  split.
  - unfold Executable.complete, which, resolvable.
    rewrite bool_decide_eq_true, find_is_Some. split.
    + intros (x & Hin & Hx). apply list_elem_of_fmap in Hin as (dir & -> & Hin).
      by exists dir.
    + intros (dir & Hin & Hx). exists (OsPath.join dir [Executable.name self]).
      split; [|done]. apply list_elem_of_fmap. by exists dir.
  - done.
Qed.

(** ** Strings *)

Lemma str_app_cons (c : ascii) (s t : string) : String c s +:+ t = String c (s +:+ t).
Proof. done. Qed.

Lemma str_app_nil_l (s : string) : "" +:+ s = s.
Proof. done. Qed.

Lemma str_app_nil_r (s : string) : s +:+ "" = s.
Proof. induction s as [|c s IH]; [done|]. by rewrite str_app_cons, IH. Qed.

Lemma str_app_assoc (s t u : string) : (s +:+ t) +:+ u = s +:+ t +:+ u.
Proof. induction s as [|c s IH]; [done|]. by rewrite !str_app_cons, IH. Qed.

Lemma cat_cons (s : string) (ls : list string) : cat (s :: ls) = s +:+ cat ls.
Proof. done. Qed.

Lemma cat_push (c : ascii) (ls : list string) : cat (push c ls) = String c (cat ls).
Proof. by destruct ls. Qed.

Lemma startswith_app (p s : string) : startswith (p +:+ s) p = true.
Proof.
  induction p as [|c p IH]; [by destruct s|].
  rewrite str_app_cons. simpl. by rewrite bool_decide_eq_true_2, IH.
Qed.

Lemma contains_app (c : ascii) (s t : string) :
  contains c (s +:+ t) = contains c s || contains c t.
Proof.
  induction s as [|a s IH]; [done|].
  rewrite str_app_cons. simpl. by rewrite IH, orb_assoc.
Qed.

Lemma compare_app (p s t : string) :
  String.compare (p +:+ s) (p +:+ t) = String.compare s t.
Proof.
  induction p as [|c p IH]; [done|].
  rewrite !str_app_cons. simpl.
  assert (Ascii.compare c c = Eq) as -> by apply N.compare_refl.
  done.
Qed.

Lemma le_app (p s t : string) : String.le (p +:+ s) (p +:+ t) <-> String.le s t.
Proof. unfold String.le, String.leb. by rewrite compare_app. Qed.

(** ** Lines and pieces *)

Lemma cat_readlines (s : string) : cat (readlines s) = s.
Proof.
  induction s as [|c s IH]; [done|]. simpl.
  destruct (is_newline c); [by rewrite cat_cons, IH | by rewrite cat_push, IH].
Qed.

Lemma cat_split_go (n room : nat) (s : string) : cat (split_go n room s) = s.
Proof.
  revert room. induction s as [|c s IH]; intros room; [done|]. simpl.
  destruct (is_newline c); [|by rewrite cat_push, IH].
  destruct room as [|[|r]]; rewrite ?cat_push, ?cat_cons, IH; done.
Qed.

(** The pieces of [split -l], put together again, are the input. *)
Lemma cat_split_l (n : nat) (s : string) : cat (split_l n s) = s.
Proof. apply cat_split_go. Qed.

Lemma readlines_nil (s : string) : readlines s = [] <-> s = "".
Proof.
  destruct s as [|c s]; [done|]. simpl.
  destruct (is_newline c); [done|]. by destruct (readlines s).
Qed.

Lemma line_count_cons (c : ascii) (s : string) :
  s <> "" ->
  line_count (String c s) = if is_newline c then S (line_count s) else line_count s.
Proof.
  intros Hs. unfold line_count. simpl.
  destruct (is_newline c); [done|].
  destruct (readlines s) eqn:Hl; [by apply readlines_nil in Hl | done].
Qed.

Lemma line_count_single (c : ascii) : line_count (String c "") = 1.
Proof. unfold line_count. simpl. by destruct (is_newline c). Qed.

Lemma split_go_nil (n room : nat) (s : string) : split_go n room s = [] <-> s = "".
Proof.
  destruct s as [|c s]; [done|]. simpl.
  destruct (is_newline c).
  - destruct room as [|[|r]]; [done..|]. by destruct (split_go n (S r) s).
  - by destruct (split_go n room s).
Qed.

Lemma split_go_nonempty (n room : nat) (s : string) :
  Forall (fun p => p <> "") (split_go n room s).
Proof.
  revert room. induction s as [|c s IH]; intros room; simpl; [done|].
  assert (forall room', Forall (fun p => p <> "") (push c (split_go n room' s)))
    as Hpush.
  { intros room'. specialize (IH room').
    destruct (split_go n room' s); simpl; [by repeat constructor|].
    apply Forall_cons in IH as [_ IH]. by constructor. }
  destruct (is_newline c); [|done].
  destruct room as [|[|r]]; [by constructor..|done].
Qed.

Lemma line_count_push_newline (c : ascii) (pieces : list string) :
  is_newline c = true -> Forall (fun p => p <> "") pieces ->
  map line_count (push c pieces) = bump (map line_count pieces).
Proof.
  intros Hc Hne. destruct pieces as [|p ps]; simpl.
  - by rewrite line_count_single.
  - apply Forall_cons in Hne as [Hp _]. by rewrite line_count_cons, Hc.
Qed.

Lemma line_count_push_other (c : ascii) (pieces : list string) :
  is_newline c = false -> pieces <> [] -> Forall (fun p => p <> "") pieces ->
  map line_count (push c pieces) = map line_count pieces.
Proof.
  intros Hc Hnil Hne. destruct pieces as [|p ps]; [done|]. simpl.
  apply Forall_cons in Hne as [Hp _]. by rewrite line_count_cons, Hc.
Qed.

Lemma piece_sizes_one (n room : nat) : piece_sizes n room 1 = [1].
Proof. by destruct room as [|[|r]]. Qed.

Lemma split_go_sizes (n room : nat) (s : string) :
  map line_count (split_go n room s) = piece_sizes n room (line_count s).
Proof.
  revert room. induction s as [|c s IH]; intros room; [done|].
  destruct (decide (s = "")) as [->|Hs].
  { rewrite line_count_single, piece_sizes_one. cbn [split_go].
    destruct (is_newline c); [destruct room as [|[|r]]|];
      cbn [split_go push map]; by rewrite line_count_single. }
  rewrite line_count_cons by done. cbn [split_go].
  destruct (is_newline c) eqn:Hc.
  - destruct room as [|[|r]]; cbn [map piece_sizes];
      rewrite ?line_count_single, ?IH; try done.
    rewrite line_count_push_newline, IH; [done..|apply split_go_nonempty].
  - rewrite line_count_push_other, IH; [done..| |apply split_go_nonempty].
    by rewrite split_go_nil.
Qed.

Lemma length_bump (sizes : list nat) : length (bump sizes) = max 1 (length sizes).
Proof. by destruct sizes as [|? []]. Qed.

Lemma piece_sizes_bound (n room total m : nat) :
  1 <= n -> 1 <= room -> 1 <= m -> total <= room + n * (m - 1) ->
  length (piece_sizes n room total) <= m.
Proof.
  intros Hn. revert room m.
  induction total as [|total IH]; intros room m Hroom Hm Hle; simpl; [lia|].
  destruct room as [|[|r]]; [lia| |].
  - simpl. destruct (decide (m = 1)) as [->|Hm1].
    + assert (total = 0) as -> by lia. simpl. lia.
    + specialize (IH n (m - 1)). 
      assert (length (piece_sizes n n total) <= m - 1); [|lia].
      apply IH; [lia..|]. 
      replace (m - 1) with (S (m - 1 - 1)) in Hle by lia. lia.
  - rewrite length_bump. specialize (IH (S r) m). 
    assert (length (piece_sizes n (S r) total) <= m); [|lia].
    apply IH; lia.
Qed.

(** [split -l n] makes at most [m] pieces of an input of at most [n * m] lines. *)
Lemma length_split_l (n m : nat) (s : string) :
  1 <= n -> 1 <= m -> line_count s <= n * m -> length (split_l n s) <= m.
Proof.
  intros Hn Hm Hle.
  rewrite <- (length_map line_count). unfold split_l.
  rewrite split_go_sizes. apply piece_sizes_bound; [done..|].
  replace m with (S (m - 1)) in Hle by lia. lia.
Qed.

Lemma lines_per_chunk_floor (total : nat) (chunks : Z) :
  chunks <> 0%Z ->
  SplitFile.lines_per_chunk total chunks = Ok ((Z.of_nat total + chunks) / chunks)%Z.
Proof.
  intros Hc. unfold SplitFile.lines_per_chunk, py_div.
  by rewrite bool_decide_eq_false_2.
Qed.


(** ** Paths *)

Lemma startswith_slash (name : string) :
  contains SLASH name = false -> startswith name "/" = false.
Proof.
  destruct name as [|c name]; [done|]. simpl.
  intros [Hc _]%orb_false_elim. apply bool_decide_eq_false in Hc.
  rewrite bool_decide_eq_false_2; [done|]. by intros <-.
Qed.

Lemma endswith_slash_app (s : string) : endswith_slash (s +:+ "/") = true.
Proof.
  induction s as [|c s IH]; [done|].
  rewrite str_app_cons. simpl. rewrite IH. by destruct (s +:+ "/").
Qed.

(** A file of a directory is the directory, as [join] ends it, and its name. *)
Lemma join_file (dir name : string) :
  contains SLASH name = false ->
  OsPath.join dir [name] = OsPath.join dir [""] +:+ name.
Proof.
  intros Hname. unfold OsPath.join. simpl. unfold OsPath.join2.
  rewrite (startswith_slash name Hname). simpl.
  destruct (bool_decide (dir = "") || endswith_slash dir).
  - by rewrite str_app_nil_r.
  - by rewrite !str_app_assoc.
Qed.

Lemma join_dir (dir : string) :
  OsPath.join dir [""] = "" \/ endswith_slash (OsPath.join dir [""]) = true.
Proof.
  unfold OsPath.join. simpl. unfold OsPath.join2. simpl.
  rewrite str_app_nil_r.
  destruct (bool_decide (dir = "")) eqn:Hdir; simpl.
  - left. by apply bool_decide_eq_true in Hdir.
  - destruct (endswith_slash dir) eqn:Hend; [by right|].
    right. rewrite <- str_app_assoc, str_app_nil_r. apply endswith_slash_app.
Qed.

Lemma rsplit_file (name : string) :
  contains SLASH name = false -> OsPath.rsplit name = ("", name).
Proof.
  induction name as [|c name IH]; [done|]. simpl.
  intros [Hc Hname]%orb_false_elim. rewrite (IH Hname). simpl.
  unfold is_slash. by rewrite Hc.
Qed.

Lemma rsplit_app (dir name : string) :
  endswith_slash dir = true -> contains SLASH name = false ->
  OsPath.rsplit (dir +:+ name) = (dir, name).
Proof.
  intros Hdir Hname. induction dir as [|c dir IH]; [done|].
  rewrite str_app_cons. simpl. destruct dir as [|c' dir].
  - rewrite str_app_nil_l, (rsplit_file name Hname). simpl in *. by rewrite Hdir.
  - rewrite (IH Hdir). by rewrite bool_decide_eq_false_2.
Qed.

Lemma basename_join (dir name : string) :
  contains SLASH name = false -> OsPath.basename (OsPath.join dir [name]) = name.
Proof.
  intros Hname. rewrite join_file by done. unfold OsPath.basename.
  destruct (join_dir dir) as [-> | Hdir].
  - by rewrite str_app_nil_l, rsplit_file.
  - by rewrite rsplit_app.
Qed.

Lemma below_join (dir name : string) :
  contains SLASH name = false -> below dir (OsPath.join dir [name]) = true.
Proof.
  intros Hname. unfold below. rewrite join_file by done. apply startswith_app.
Qed.

Section piece_paths.
Variables (suffix : nat -> string) (taskdir prefix : string).
Hypothesis prefix_name : contains SLASH prefix = false.

Lemma piece_path_eq (i : nat) :
  contains SLASH (suffix i) = false ->
  piece_path suffix taskdir prefix i
  = OsPath.join taskdir [""] +:+ prefix +:+ suffix i.
Proof.
  intros Hi. unfold piece_path. rewrite join_file; [done|].
  by rewrite contains_app, prefix_name, Hi.
Qed.

Lemma piece_path_clash (i : nat) :
  contains SLASH (suffix i) = false ->
  clash taskdir prefix (piece_path suffix taskdir prefix i) = true.
Proof.
  intros Hi.
  assert (contains SLASH (prefix +:+ suffix i) = false) as Hname.
  { by rewrite contains_app, prefix_name, Hi. }
  unfold clash, piece_path.
  by rewrite below_join, basename_join, startswith_app.
Qed.

Lemma piece_path_le (i j : nat) :
  contains SLASH (suffix i) = false -> contains SLASH (suffix j) = false ->
  String.le (piece_path suffix taskdir prefix i)
            (piece_path suffix taskdir prefix j)
  <-> String.le (suffix i) (suffix j).
Proof. intros Hi Hj. by rewrite !piece_path_eq, !le_app. Qed.

Lemma piece_path_inj (i j : nat) :
  contains SLASH (suffix i) = false -> contains SLASH (suffix j) = false ->
  piece_path suffix taskdir prefix i = piece_path suffix taskdir prefix j ->
  suffix i = suffix j.
Proof.
  intros Hi Hj. rewrite !piece_path_eq by done.
  intros Heq. by repeat apply (inj (String.app _)) in Heq.
Qed.
End piece_paths.

Section write_pieces.
Variable path_of : nat -> string.

Lemma write_pieces_is_Some (i : nat) (pieces : list string) (fs : FileSystem)
    (p : string) :
  is_Some (write_pieces path_of i pieces fs !! p) <->
  (exists j, i <= j < i + length pieces /\ p = path_of j) \/ is_Some (fs !! p).
Proof.
  revert i fs. induction pieces as [|x pieces IH]; intros i fs; simpl.
  - split; [by right|]. intros [(j & ? & _)|?]; [lia | done].
  - rewrite IH, lookup_insert_is_Some. split.
    + intros [(j & ? & ->)|[<-|[_ ?]]]; [left; exists j|left; exists i|right];
        (done || (split; [lia | done])).
    + intros [(j & ? & ->)|?].
      * destruct (decide (j = i)) as [->|?]; [right; by left|].
        left. exists j. split; [lia | done].
      * destruct (decide (path_of i = p)); right; [by left | by right].
Qed.

Lemma write_pieces_other (i : nat) (pieces : list string) (fs : FileSystem)
    (p : string) :
  (forall j, i <= j < i + length pieces -> path_of j <> p) ->
  write_pieces path_of i pieces fs !! p = fs !! p.
Proof.
  revert i fs. induction pieces as [|x pieces IH]; intros i fs Hne; simpl; [done|].
  rewrite IH.
  - apply lookup_insert_ne, Hne. simpl. lia.
  - intros j Hj. apply Hne. simpl. lia.
Qed.

Lemma write_pieces_lookup (i k : nat) (pieces : list string) (fs : FileSystem)
    (x : string) :
  (forall j j', i <= j < j' /\ j' < i + length pieces -> path_of j <> path_of j') ->
  pieces !! k = Some x ->
  write_pieces path_of i pieces fs !! path_of (i + k) = Some x.
Proof.
  revert i k fs. induction pieces as [|y pieces IH]; intros i k fs Hinj; [done|].
  destruct k as [|k]; simpl.
  - intros [= ->]. rewrite Nat.add_0_r, write_pieces_other.
    + apply lookup_insert_eq.
    + intros j Hj Heq. apply (Hinj i j); [simpl; lia | done].
  - intros Hk. replace (i + S k) with (S i + k) by lia.
    apply IH; [|done]. intros j j' Hj. apply Hinj. simpl. lia.
Qed.
End write_pieces.

Lemma elem_of_List_filter {A} (f : A -> bool) (l : list A) (x : A) :
  x ∈ List.filter f l <-> f x = true /\ x ∈ l.
Proof. rewrite !list_elem_of_In, filter_In. tauto. Qed.

Lemma StronglySorted_List_filter {A} (R : relation A) (f : A -> bool) (l : list A) :
  StronglySorted R l -> StronglySorted R (List.filter f l).
Proof.
  induction 1 as [|x l Hl IH Hx]; simpl; [constructor|].
  destruct (f x); [|done]. constructor; [done|].
  apply Forall_forall. intros y [_ Hy]%elem_of_List_filter.
  by eapply Forall_forall in Hx.
Qed.

Lemma NoDup_List_filter {A} (f : A -> bool) (l : list A) :
  NoDup l -> NoDup (List.filter f l).
Proof. rewrite !NoDup_ListNoDup. apply List.NoDup_filter. Qed.

Lemma elem_of_keys (fs : FileSystem) (p : string) :
  p ∈ (map_to_list fs).*1 <-> is_Some (fs !! p).
Proof.
  rewrite list_elem_of_fmap. split.
  - intros ([k x] & -> & Hin). apply elem_of_map_to_list in Hin. by exists x.
  - intros [x Hx]. exists (p, x). split; [done | by apply elem_of_map_to_list].
Qed.

Lemma manifest_paths_sorted (prefix : string) (listing : list string) :
  Sorted String.le (SplitFile.manifest_paths prefix listing).
Proof.
  apply StronglySorted_Sorted, StronglySorted_List_filter.
  apply (Sorted_StronglySorted String.le), sorted_Sorted.
Qed.

Lemma elem_of_manifest_paths (prefix : string) (listing : list string) (p : string) :
  p ∈ SplitFile.manifest_paths prefix listing <->
  startswith (OsPath.basename p) prefix = true /\ p ∈ listing.
Proof.
  unfold SplitFile.manifest_paths.
  by rewrite elem_of_List_filter, sorted_Permutation.
Qed.

Lemma manifest_paths_NoDup (prefix : string) (listing : list string) :
  NoDup listing -> NoDup (SplitFile.manifest_paths prefix listing).
Proof.
  intros Hnd. apply NoDup_List_filter. by rewrite sorted_Permutation.
Qed.

Section listing.
Variables (suffix : nat -> string) (taskdir prefix : string).
Variables (fs : FileSystem) (pieces : list string).
Hypothesis prefix_name : contains SLASH prefix = false.
Hypothesis suffix_names :
  forall i, i < length pieces -> contains SLASH (suffix i) = false.
Hypothesis suffix_increasing :
  forall i j, i < j < length pieces -> strict String.le (suffix i) (suffix j).
Hypothesis fresh :
  forall p, is_Some (fs !! p) -> clash taskdir prefix p = false.

Lemma piece_paths_distinct (i j : nat) :
  i < j < length pieces ->
  piece_path suffix taskdir prefix i <> piece_path suffix taskdir prefix j.
Proof.
  intros Hij Heq. apply piece_path_inj in Heq; [|done|apply suffix_names; lia..].
  destruct (suffix_increasing i j Hij) as [_ Hnle]. apply Hnle.
  rewrite Heq. done.
Qed.

Lemma piece_paths_sorted :
  Sorted String.le (piece_paths suffix taskdir prefix (length pieces)).
Proof.
  apply StronglySorted_Sorted. unfold piece_paths.
  assert (forall i n, i + n <= length pieces ->
            StronglySorted String.le
              (piece_path suffix taskdir prefix <$> seq i n)) as Hgen.
  { intros i n. revert i. induction n as [|n IH]; intros i Hle; simpl.
    - constructor.
    - constructor; [apply IH; lia|].
      apply Forall_fmap, Forall_seq. intros j Hj. simpl.
      apply piece_path_le; [done|apply suffix_names; lia..|].
      apply suffix_increasing. lia. }
  by apply Hgen.
Qed.

Lemma piece_paths_NoDup : NoDup (piece_paths suffix taskdir prefix (length pieces)).
Proof.
  apply NoDup_fmap_2_strong; [|apply NoDup_seq].
  intros i j [_ Hi]%elem_of_seq [_ Hj]%elem_of_seq Heq.
  destruct (Nat.lt_total i j) as [Hlt|[->|Hlt]]; [|done|].
  - by destruct (piece_paths_distinct i j).
  - by destruct (piece_paths_distinct j i).
Qed.

(** The manifest lists exactly the pieces, in the order they were cut. *)
Lemma manifest_paths_split_files :
  SplitFile.manifest_paths prefix
    (List.filter (below taskdir)
       (map_to_list (split_files suffix taskdir prefix pieces fs)).*1)
  = piece_paths suffix taskdir prefix (length pieces).
Proof.
  apply (Sorted_unique String.le);
    [apply manifest_paths_sorted | apply piece_paths_sorted |].
  apply NoDup_Permutation.
  - apply manifest_paths_NoDup, NoDup_List_filter, NoDup_fst_map_to_list.
  - apply piece_paths_NoDup.
  - intros p. unfold split_files, piece_paths.
    rewrite elem_of_manifest_paths, elem_of_List_filter, elem_of_keys.
    rewrite write_pieces_is_Some, list_elem_of_fmap. split.
    + intros (Hstart & Hbelow & [(j & Hj & ->)|Hold]).
      * exists j. split; [done|]. apply elem_of_seq. lia.
      * apply fresh in Hold. unfold clash in Hold.
        by rewrite Hbelow, Hstart in Hold.
    + intros (j & -> & [_ Hj]%elem_of_seq).
      assert (clash taskdir prefix (piece_path suffix taskdir prefix j) = true)
        as Hclash.
      { apply piece_path_clash; [done|]. apply suffix_names. lia. }
      apply andb_true_iff in Hclash as [Hbelow Hstart].
      split; [done|]. split; [done|]. left. exists j. split; [lia | done].
Qed.

Lemma split_files_lookup (k : nat) (x : string) :
  pieces !! k = Some x ->
  split_files suffix taskdir prefix pieces fs
    !! piece_path suffix taskdir prefix k = Some x.
Proof.
  intros Hk. apply (write_pieces_lookup _ 0 k); [|done].
  intros j j' Hj. apply piece_paths_distinct. lia.
Qed.

(** Reading the pieces back, once the manifest is written at [out]. *)
Lemma cat_files_split_files (out manifest : string) :
  clash taskdir prefix out = false ->
  cat_files (<[out := manifest]> (split_files suffix taskdir prefix pieces fs))
            (piece_paths suffix taskdir prefix (length pieces))
  = Some (cat pieces).
Proof.
  intros Hout. unfold cat_files.
  assert (mapM (fun path =>
                  <[out := manifest]> (split_files suffix taskdir prefix pieces fs)
                    !! path)
               (piece_paths suffix taskdir prefix (length pieces))
          = Some pieces) as ->; [|done].
  apply mapM_Some, Forall2_same_length_lookup_2.
  { unfold piece_paths. by rewrite length_fmap, length_seq. }
  intros k p x Hp Hx.
  apply list_lookup_fmap_Some in Hp as (k' & -> & Hk').
  apply lookup_seq in Hk' as [-> Hk]. simpl.
  rewrite lookup_insert_ne; [by apply split_files_lookup|].
  intros ->. rewrite piece_path_clash in Hout; [done..|by apply suffix_names].
Qed.
End listing.

(** ** SplitFile.run *)

Lemma run_unreadable sh suffix tmpdir self prefix (fs : FileSystem) :
  fs !! SplitFile.filename self = None ->
  SplitFile.run sh suffix tmpdir self prefix fs
  = (Raise (IOError (SplitFile.filename self)), fs).
Proof.
  intros Hfile. unfold SplitFile.run, mbind, IO_bind, read_file.
  by rewrite Hfile.
Qed.

Lemma run_raises_arith sh suffix tmpdir self prefix (fs : FileSystem) contents e :
  fs !! SplitFile.filename self = Some contents ->
  SplitFile.lines_per_chunk (line_count contents) (SplitFile.chunks self) = Raise e ->
  SplitFile.run sh suffix tmpdir self prefix fs = (Raise e, fs).
Proof.
  intros Hfile Hlines. unfold SplitFile.run, mbind, IO_bind, read_file, lift.
  by rewrite Hfile, Hlines.
Qed.

Lemma run_output_raises sh suffix tmpdir self prefix (fs : FileSystem)
    contents lines e :
  fs !! SplitFile.filename self = Some contents ->
  SplitFile.lines_per_chunk (line_count contents) (SplitFile.chunks self) = Ok lines ->
  SplitFile.output tmpdir self = Raise e ->
  SplitFile.run sh suffix tmpdir self prefix fs = (Raise e, fs).
Proof.
  intros Hfile Hlines Hout. unfold SplitFile.run, mbind, IO_bind, read_file, lift.
  by rewrite Hfile, Hlines, Hout.
Qed.

Lemma join_absolute (dir name : string) :
  startswith name "/" = true -> OsPath.join dir [name] = name.
Proof.
  intros Habs. unfold OsPath.join. simpl. unfold OsPath.join2. by rewrite Habs.
Qed.

Lemma run_split_rejects sh suffix tmpdir self prefix (fs : FileSystem)
    contents lines out :
  fs !! SplitFile.filename self = Some contents ->
  SplitFile.lines_per_chunk (line_count contents) (SplitFile.chunks self) = Ok lines ->
  (lines <= 0)%Z ->
  SplitFile.output tmpdir self = Ok out ->
  shell_word (OsPath.dirname out) = true ->
  shell_word (SplitFile.filename self) = true ->
  shell_word prefix = true ->
  exists command,
    SplitFile.run sh suffix tmpdir self prefix fs = (Raise (RuntimeError command), fs).
Proof.
  intros Hfile Hlines Hle Hout Hdir Hname Hprefix. eexists.
  unfold SplitFile.run, mbind, IO_bind, read_file, lift, path_exists, makedirs,
    shellout_split.
  rewrite Hfile, Hlines, Hout, Hdir, Hname, Hprefix. simpl.
  destruct (negb _); simpl; by rewrite bool_decide_eq_true_2.
Qed.

Lemma run_splits sh suffix tmpdir self prefix (fs : FileSystem)
    contents lines out input :
  fs !! SplitFile.filename self = Some contents ->
  SplitFile.lines_per_chunk (line_count contents) (SplitFile.chunks self) = Ok lines ->
  (0 < lines)%Z ->
  SplitFile.output tmpdir self = Ok out ->
  shell_word (OsPath.dirname out) = true ->
  shell_word (SplitFile.filename self) = true ->
  shell_word prefix = true ->
  fs !! OsPath.join (OsPath.dirname out) [SplitFile.filename self] = Some input ->
  SplitFile.run sh suffix tmpdir self prefix fs
  = let fs' := split_files suffix (OsPath.dirname out) prefix
                 (split_l (Z.to_nat lines) input) fs in
    (Ok tt,
     <[out := cat (map write_tsv
                (SplitFile.manifest_paths prefix
                   (List.filter (below (OsPath.dirname out))
                      (map_to_list fs').*1)))]> fs').
Proof.
  intros Hfile Hlines Hpos Hout Hdir Hname Hprefix Hinput.
  unfold SplitFile.run, mbind, IO_bind, read_file, lift, path_exists, makedirs,
    shellout_split, iterfiles, write_file.
  rewrite Hfile, Hlines, Hout, Hdir, Hname, Hprefix. simpl.
  unfold OsPath.join in Hinput. simpl in Hinput.
  destruct (negb _); simpl; rewrite bool_decide_eq_false_2 by lia;
    by rewrite Hinput.
Qed.

Lemma run_input_missing sh suffix tmpdir self prefix (fs : FileSystem)
    contents lines out :
  fs !! SplitFile.filename self = Some contents ->
  SplitFile.lines_per_chunk (line_count contents) (SplitFile.chunks self) = Ok lines ->
  SplitFile.output tmpdir self = Ok out ->
  shell_word (OsPath.dirname out) = true ->
  shell_word (SplitFile.filename self) = true ->
  shell_word prefix = true ->
  fs !! OsPath.join (OsPath.dirname out) [SplitFile.filename self] = None ->
  exists command,
    SplitFile.run sh suffix tmpdir self prefix fs = (Raise (RuntimeError command), fs).
Proof.
  intros Hfile Hlines Hout Hdir Hname Hprefix Hinput. eexists.
  unfold SplitFile.run, mbind, IO_bind, read_file, lift, path_exists, makedirs,
    shellout_split.
  rewrite Hfile, Hlines, Hout, Hdir, Hname, Hprefix. simpl.
  unfold OsPath.join in Hinput. simpl in Hinput.
  destruct (negb _); simpl; case_bool_decide; try done; by rewrite Hinput.
Qed.

(** Whatever the shell did, a run that returns has written the manifest
    last: the listing of the task directory as the command left it. *)
Lemma run_returns sh suffix tmpdir self prefix (fs fs' : FileSystem) out :
  SplitFile.output tmpdir self = Ok out ->
  SplitFile.run sh suffix tmpdir self prefix fs = (Ok tt, fs') ->
  exists fs1 : FileSystem,
    fs' = <[out := cat (map write_tsv
                     (SplitFile.manifest_paths prefix
                        (List.filter (below (OsPath.dirname out))
                           (map_to_list fs1).*1)))]> fs1.
Proof.
  intros Hout.
  unfold SplitFile.run, mbind, IO_bind, read_file, lift, path_exists, makedirs,
    iterfiles, write_file.
  destruct (fs !! SplitFile.filename self) as [contents|]; [|done].
  destruct (SplitFile.lines_per_chunk _ _) as [lines|e]; [|done].
  rewrite Hout. simpl.
  destruct (negb _); simpl;
    destruct (shellout_split _ _ _ _ _ _ _) as [[[]|e] fs1]; try done;
    intros [= <-]; by exists fs1.
Qed.

Lemma lines_positive (total : nat) (chunks : Z) :
  (1 <= chunks)%Z -> (1 <= (Z.of_nat total + chunks) / chunks)%Z.
Proof. intros Hc. apply Z.div_le_lower_bound; lia. Qed.

Lemma pieces_bounded (chunks : Z) (contents : string) :
  (1 <= chunks)%Z ->
  length (split_l (Z.to_nat ((Z.of_nat (line_count contents) + chunks) / chunks))
                  contents)
  <= Z.to_nat chunks.
Proof.
  intros Hc. pose proof (lines_positive (line_count contents) chunks Hc) as Hpos.
  apply length_split_l; [lia..|].
  apply Nat2Z.inj_le. rewrite Nat2Z.inj_mul, !Z2Nat.id by lia.
  pose proof (Z.mul_succ_div_gt (Z.of_nat (line_count contents) + chunks) chunks).
  lia.
Qed.

Lemma lines_not_positive (total : nat) (chunks : Z) :
  (chunks < 0)%Z -> 1 <= total -> ((Z.of_nat total + chunks) / chunks <= 0)%Z.
Proof.
  intros Hc Htotal.
  rewrite <- Z.div_opp_opp by lia.
  assert ((- (Z.of_nat total + chunks)) / (- chunks) < 1)%Z; [|lia].
  apply Z.div_lt_upper_bound; lia.
Qed.

Lemma line_count_pos (contents : string) : contents <> "" -> 1 <= line_count contents.
Proof.
  intros Hne. unfold line_count.
  destruct (readlines contents) eqn:Hl; [by apply readlines_nil in Hl | simpl; lia].
Qed.



(** ** The suffixes of POSIX split *)

Lemma StronglySorted_lookup {A} (R : relation A) (l : list A) (i j : nat) (x y : A) :
  StronglySorted R l -> i < j -> l !! i = Some x -> l !! j = Some y -> R x y.
Proof.
  intros Hl. revert i j. induction Hl as [|z l Hl IH Hz]; intros i j Hij Hi Hj.
  - done.
  - destruct j as [|j]; [lia|]. destruct i as [|i]; simpl in *.
    + injection Hi as ->. eapply Forall_forall in Hz; [done|].
      by eapply list_elem_of_lookup_2.
    + apply (IH i j); [lia | done..].
Qed.

Lemma posix_suffix_lookup (i : nat) :
  i < 676 -> (posix_suffix <$> seq 0 676) !! i = Some (posix_suffix i).
Proof. intros Hi. by rewrite list_lookup_fmap, lookup_seq_lt. Qed.

Lemma posix_suffix_increasing (i j : nat) :
  i < j < 676 -> strict String.le (posix_suffix i) (posix_suffix j).
Proof.
  intros Hij.
  assert (Sorted (strict String.le) (posix_suffix <$> seq 0 676)) as Hsorted.
  { change (Sorted (fun x y => String.le x y /\ ~ String.le y x)
                   (posix_suffix <$> seq 0 676)).
    apply (bool_decide_unpack _). by vm_compute. }
  apply (Sorted_StronglySorted _) in Hsorted.
  apply (StronglySorted_lookup _ _ i j _ _ Hsorted);
    [lia | apply posix_suffix_lookup; lia..].
Qed.

Lemma posix_suffix_name (i : nat) :
  i < 676 -> contains SLASH (posix_suffix i) = false.
Proof.
  intros Hi.
  assert (Forall (fun s => contains SLASH s = false) (posix_suffix <$> seq 0 676))
    as Hall.
  { apply (bool_decide_unpack _). by vm_compute. }
  eapply Forall_lookup_1 in Hall; [|by apply posix_suffix_lookup]. done.
Qed.

(** ** Evaluations *)

Example path_readable :
  BaseTask.path Examples.jan05 None "tsv" false None
  = Ok "/tmp/t/ExampleTask/date-2020-01-05-kind-full.tsv".
Proof. reflexivity. Qed.

Example path_nearest :
  BaseTask.path Examples.jan20 None "tsv" false (Some [("date", nearest)])
  = Ok "/tmp/t/ExampleTask/date-2020-01-01-kind-full.tsv".
Proof. reflexivity. Qed.

Example path_digest :
  BaseTask.path Examples.jan05 None "tsv" true None
  = Ok "/tmp/t/ExampleTask/9808c666cbd05f65bc8724fc1f8b8efe031c9e30.tsv".
Proof. vm_compute. reflexivity. Qed.

Example path_no_parameters :
  BaseTask.path (with_params Examples.jan05 []) None "xml" false None
  = Ok "/tmp/t/ExampleTask/output.xml".
Proof. reflexivity. Qed.

Example path_non_ascii_filename :
  BaseTask.path Examples.jan05
    (Some ("caf" +:+ String (ascii_of_nat 195) (String (ascii_of_nat 169) ".tsv")))
    "tsv" false None
  = Raise (UnicodeDecodeError
             ("/caf" +:+ String (ascii_of_nat 195) (String (ascii_of_nat 169) ".tsv"))).
Proof. reflexivity. Qed.

Example path_non_ascii_absolute_filename :
  BaseTask.path Examples.jan05
    (Some ("/caf" +:+ String (ascii_of_nat 195) (String (ascii_of_nat 169) ".tsv")))
    "tsv" false None
  = Ok ("/caf" +:+ String (ascii_of_nat 195) (String (ascii_of_nat 169) ".tsv")).
Proof. reflexivity. Qed.

Example output_non_ascii_tmpdir :
  SplitFile.output MoreExamples.tmp_utf8 Examples.split2
  = Raise (UnicodeDecodeError MoreExamples.tmp_utf8).
Proof. reflexivity. Qed.

Example sha1_abc : SHA1.hexdigest "abc" = "a9993e364706816aba3e25717850c26c9cd0d89d".
Proof. vm_compute. reflexivity. Qed.

Example split_four_lines :
  split_l 3 Examples.four_lines = ["a" +:+ nl +:+ "b" +:+ nl +:+ "c" +:+ nl; "d"].
Proof. reflexivity. Qed.

(** C6, counterexample. A task without [nearest] and a rule that uses
    [nearest] for ["day"], which is not a parameter of the task: the rule is
    skipped, nothing is raised, and the path is built from the raw date. *)
Lemma nearest_missing_rule_skipped :
  nearest Examples.no_nearest = Raise (AttributeError "Missing attribute.")
  /\ BaseTask.path Examples.no_nearest None "tsv" false (Some [("day", nearest)])
     = Ok "/tmp/t/ExampleTask/date-2020-01-05-kind-full.tsv".
Proof. split; reflexivity. Qed.



(** ** Instances of the theorems *)


Lemma path_deterministic_witness :
  BaseTask.path Examples.jan05 None "tsv" true (Some [("date", nearest)])
  = BaseTask.path Examples.jan20 None "tsv" true (Some [("date", nearest)]).
Proof.
  apply (path_deterministic Examples.jan05 Examples.jan20
           (Some [("date", nearest)]) (Some [("date", nearest)])
           [("date", VDate (Date 2020 1 1)); ("kind", VStr "full")]
           [("kind", VStr "full"); ("date", VDate (Date 2020 1 1))]).
  - reflexivity.
  - reflexivity.
  - reflexivity.
  - reflexivity.
  - reflexivity.
  - apply perm_swap.
Defined.

Lemma path_order_independent_witness :
  BaseTask.path
    (with_params Examples.jan05
       [("kind", VStr "full"); ("date", VStr "2020-01-05")])
    None "tsv" false (Some [("date", nearest)])
  = BaseTask.path Examples.jan05 None "tsv" false (Some [("date", nearest)]).
Proof.
  apply (path_order_independent Examples.jan05).
  - apply (bool_decide_unpack _). vm_compute. exact I.
  - apply perm_swap.
  - apply Forall_cons_2; [reflexivity | apply Forall_nil_2].
Defined.


Lemma path_normalization_collapse_witness :
  BaseTask.path Examples.jan05 None "tsv" false (Some [("date", nearest)])
  = BaseTask.path Examples.jan20 None "tsv" false (Some [("date", nearest)]).
Proof.
  apply (path_normalization_collapse Examples.jan05 Examples.jan20
           (Date 2020 1 5) (Date 2020 1 20)).
  - reflexivity.
  - reflexivity.
  - reflexivity.
  - apply (bool_decide_unpack _). vm_compute. exact I.
  - apply (bool_decide_unpack _). vm_compute. exact I.
  - intros k Hk. simpl. rewrite (bool_decide_eq_false_2 ("date" = k)) by congruence.
    destruct (bool_decide ("kind" = k)); reflexivity.
  - reflexivity.
  - reflexivity.
  - reflexivity.
  - reflexivity.
  - reflexivity.
  - reflexivity.
  - reflexivity.
Defined.

Lemma nearest_missing_fails_witness :
  nearest Examples.no_nearest = Raise (AttributeError "Missing attribute.")
  /\ BaseTask.apply_cbmap Examples.no_nearest [("date", nearest)]
       (task_params Examples.no_nearest)
     = Raise (AttributeError "Missing attribute.")
  /\ BaseTask.path Examples.no_nearest None "tsv" false (Some [("date", nearest)])
     = Raise (AttributeError "Missing attribute.")
  /\ exists e,
       BaseTask.path Examples.no_nearest None "tsv" false
         (Some [("kind", MoreExamples.constant (VStr "all")); ("date", nearest)])
       = Raise e
       /\ (e = RuntimeError "TAG and BASE must be set."
           \/ exists k cb,
                (k, cb) ∈ [("kind", MoreExamples.constant (VStr "all"));
                           ("date", nearest)]
                /\ cb Examples.no_nearest = Raise e).
Proof.
  apply (nearest_missing_fails Examples.no_nearest "date"
           [("kind", MoreExamples.constant (VStr "all")); ("date", nearest)]
           "tsv" false).
  - reflexivity.
  - reflexivity.
  - apply list_elem_of_further, list_elem_of_here.
Defined.

Lemma path_misconfigured_witness :
  BaseTask.path Examples.unconfigured None "tsv" false None
  = Raise (RuntimeError "TAG and BASE must be set.").
Proof.
  apply (path_misconfigured Examples.unconfigured).
  left. reflexivity.
Defined.


(** * Further properties of the code *)

(** ** Digests *)

Lemma length_be_bytes (width : nat) (x : Z) : length (SHA1.be_bytes width x) = width.
Proof. unfold SHA1.be_bytes. by rewrite length_map, length_rev, length_seq. Qed.

Lemma length_digest (msg : list Z) : length (SHA1.digest msg) = 20.
Proof.
  unfold SHA1.digest.
  destruct (fold_left _ _ _) as [[[[h0 h1] h2] h3] h4]. cbn [flat_map].
  by rewrite !length_app, !length_be_bytes.
Qed.

Lemma hexdigit_is_hexdigit (x : Z) : is_hexdigit (SHA1.hexdigit x) = true.
Proof.
  unfold SHA1.hexdigit. generalize (Z.to_nat x). intros n.
  do 16 (destruct n as [|n]; [reflexivity|]). by destruct n.
Qed.

Lemma length_hex (bs : list Z) : String.length (SHA1.hex bs) = 2 * length bs.
Proof.
  unfold SHA1.hex. induction bs as [|b bs IH]; [done|].
  simpl in *. rewrite IH. lia.
Qed.

Lemma hex_is_hex (bs : list Z) : str_forall is_hexdigit (SHA1.hex bs) = true.
Proof.
  unfold SHA1.hex. induction bs as [|b bs IH]; [done|].
  simpl. by rewrite !hexdigit_is_hexdigit, IH.
Qed.

Lemma length_hexdigest (s : string) : String.length (SHA1.hexdigest s) = 40.
Proof. unfold SHA1.hexdigest. by rewrite length_hex, length_digest. Qed.

Lemma hexdigest_is_hex (s : string) : str_forall is_hexdigit (SHA1.hexdigest s) = true.
Proof. apply hex_is_hex. Qed.

Lemma hex_no_slash (s : string) :
  str_forall is_hexdigit s = true -> contains SLASH s = false.
Proof.
  induction s as [|c s IH]; [done|]. simpl.
  intros [Hc Hs]%andb_true_iff. rewrite (IH Hs), orb_false_r.
  apply bool_decide_eq_false. intros ->. done.
Qed.

Lemma default_filename_digest (d : dict value) (ext : string) :
  exists stem,
    BaseTask.default_filename d ext true = stem +:+ "." +:+ ext
    /\ String.length stem = 40
    /\ str_forall is_hexdigit stem = true.
Proof.
  unfold BaseTask.default_filename. eexists. split; [done|].
  split; [apply length_hexdigest | apply hexdigest_is_hex].
Qed.

Lemma hexdigit_ascii (c : ascii) : is_hexdigit c = true -> is_ascii_char c = true.
Proof.
  unfold is_hexdigit. simpl. intros Hc.
  repeat (apply orb_true_iff in Hc as [Hc|Hc];
          [apply bool_decide_eq_true in Hc as <-; reflexivity|]).
  done.
Qed.

Lemma hex_is_ascii (s : string) : str_forall is_hexdigit s = true -> is_ascii s = true.
Proof.
  induction s as [|c s IH]; [done|]. simpl.
  intros [Hc Hs]%andb_true_iff. unfold is_ascii. simpl.
  rewrite (hexdigit_ascii c Hc). by apply IH.
Qed.

(** X1. Digest names. When [digest] is set and the callbacks succeed, the
    file name built by [BaseTask.path] is a stem of exactly 40 lowercase
    hexadecimal digits, a dot and the extension, in [join(BASE, TAG, name)].
    [BASE], [TAG], the task name and the extension are ASCII, so that the
    join raises no [UnicodeDecodeError]; the parameters may hold any byte. *)
Theorem path_digest_wellformed (self : Task) (ext base tag : string)
    (cbmap : option (dict callback)) (np : dict value) :
  BASE self = Some base -> TAG self = Some tag ->
  is_ascii base = true -> is_ascii tag = true ->
  is_ascii (task_name self) = true -> is_ascii ext = true ->
  BaseTask.apply_cbmap self (default [] cbmap) (task_params self) = Ok np ->
  exists stem,
    BaseTask.path self None ext true cbmap
    = Ok (OsPath.join base [tag; task_name self; stem +:+ "." +:+ ext])
    /\ String.length stem = 40
    /\ str_forall is_hexdigit stem = true.
Proof.
  intros HB HT Hbase Htag Hname Hext Hnp. rewrite path_unfold, HB, HT, Hnp.
  unfold mbind, result_bind.
  destruct (default_filename_digest np ext) as (stem & -> & Hlen & Hhex).
  exists stem. split; [|done]. apply joined_ascii; [done..|].
  by rewrite !is_ascii_app, (hex_is_ascii stem Hhex), Hext.
Qed.

Lemma basename_join3 (base tag name filename : string) :
  contains SLASH filename = false ->
  OsPath.basename (OsPath.join base [tag; name; filename]) = filename.
Proof.
  intros Hfile.
  change (OsPath.join base [tag; name; filename])
    with (OsPath.join (OsPath.join base [tag; name]) [filename]).
  by apply basename_join.
Qed.

(** X2. A digest name is a single path component: whatever the parameter
    values hold (slashes included), the base name of the path is the
    40-digit stem with the extension, provided the extension has no slash. *)
Theorem path_digest_basename (self : Task) (ext : string)
    (cbmap : option (dict callback)) (p : string) :
  contains SLASH ext = false ->
  BaseTask.path self None ext true cbmap = Ok p ->
  exists stem,
    OsPath.basename p = stem +:+ "." +:+ ext
    /\ String.length stem = 40
    /\ contains SLASH (OsPath.basename p) = false.
Proof.
  intros Hext. rewrite path_unfold.
  destruct (TAG self) as [tag|], (BASE self) as [base|]; try done.
  destruct (BaseTask.apply_cbmap _ _ _) as [np|e]; [|done].
  unfold mbind, result_bind. intros ->%joined_Ok.
  destruct (default_filename_digest np ext) as (stem & -> & Hlen & Hhex).
  assert (contains SLASH (stem +:+ "." +:+ ext) = false) as Hname.
  { by rewrite !contains_app, (hex_no_slash stem Hhex), Hext. }
  pose proof (basename_join3 base tag (task_name self) _ Hname) as Hbase.
  exists stem. split; [exact Hbase|]. split; [done|].
  etrans; [|exact Hname]. f_equal. exact Hbase.
Qed.

Lemma apply_cbmap_absent (self : Task) (cbmap : dict callback) (d : dict value) :
  Forall (fun kc => dict_has kc.1 d = false) cbmap ->
  BaseTask.apply_cbmap self cbmap d = Ok d.
Proof.
  induction 1 as [|[key cb] rest Hkey Hrest IH]; simpl; [done|].
  simpl in Hkey. by rewrite Hkey.
Qed.

(** X3. No parameters. For a task without parameters the file name is
    ["output"] with the extension (its SHA-1 with [digest]): [BaseTask.path]
    gives what it gives for that file name passed as [filename], the check
    of [BASE] and [TAG] and the errors of the join included. The callbacks of
    [cbmap] are not called, even those that would raise. *)
Theorem path_no_parameters_output (self : Task) (ext : string) (digest : bool)
    (cbmap : option (dict callback)) :
  task_params self = [] ->
  BaseTask.path self None ext digest cbmap =
  BaseTask.path self
    (Some ((if digest then "1029d67644815d428f554e390aa966d57a0b29b8"
            else "output") +:+ "." +:+ ext))
    ext digest cbmap.
Proof.
  intros Hparams. rewrite path_unfold, path_explicit, Hparams.
  destruct (TAG self) as [tag|], (BASE self) as [base|]; try done.
  rewrite apply_cbmap_absent by (apply Forall_forall; done).
  unfold mbind, result_bind, BaseTask.default_filename. simpl.
  destruct digest; [|done].
  assert (SHA1.hexdigest "output" = "1029d67644815d428f554e390aa966d57a0b29b8")
    as -> by (vm_compute; reflexivity).
  done.
Qed.

(** X4. Rules for parameters the task does not have are skipped: a [cbmap]
    none of whose keys is a parameter gives the path of no [cbmap] at all,
    and its callbacks are never called. *)
Theorem path_skips_absent_rules (self : Task) (filename : option string)
    (ext : string) (digest : bool) (cbmap : dict callback) :
  Forall (fun kc => dict_has kc.1 (task_params self) = false) cbmap ->
  BaseTask.path self filename ext digest (Some cbmap) =
  BaseTask.path self filename ext digest None.
Proof.
  intros Habsent. destruct filename as [filename|]; [done|].
  rewrite !path_unfold. simpl. by rewrite apply_cbmap_absent.
Qed.

(** ** Normalization *)

Lemma dict_has_false_not_elem {V} (k : string) (d : dict V) :
  dict_has k d = false <-> k ∉ dict_keys d.
Proof.
  rewrite <- dict_has_elem_of. destruct (dict_has k d); split; (done || congruence).
Qed.

Lemma apply_cbmap_untouched (self : Task) (cbmap : dict callback)
    (d np : dict value) (k : string) :
  dict_has k cbmap = false ->
  BaseTask.apply_cbmap self cbmap d = Ok np ->
  dict_get k np = dict_get k d.
Proof.
  revert d. induction cbmap as [|[key cb] rest IH]; simpl; intros d Hk.
  - by intros [= ->].
  - apply orb_false_elim in Hk as [Hkey Hrest].
    apply bool_decide_eq_false in Hkey.
    destruct (dict_has key d) eqn:Hin; simpl; [|by apply IH].
    destruct (cb self) as [v|e]; simpl; [|done].
    intros Hnp. rewrite (IH _ Hrest Hnp), dict_get_set.
    by rewrite bool_decide_eq_false_2 by congruence.
Qed.

(** X5. What the callback loop computes. When it succeeds on a [cbmap] with
    distinct keys, the parameters keep their keys and their order; each
    parameter with a rule has the value its callback returns for the task,
    and every parameter without a rule keeps its value. *)
Theorem apply_cbmap_spec (self : Task) (cbmap : dict callback) (d np : dict value) :
  NoDup (dict_keys cbmap) ->
  BaseTask.apply_cbmap self cbmap d = Ok np ->
  dict_keys np = dict_keys d
  /\ (forall k cb, (k, cb) ∈ cbmap -> dict_has k d = true ->
        exists v, cb self = Ok v /\ dict_get k np = Some v)
  /\ (forall k, dict_has k cbmap = false -> dict_get k np = dict_get k d).
Proof.
  intros Hnd Hnp. split; [by eapply apply_cbmap_keys|].
  split; [|intros k Hk; by eapply apply_cbmap_untouched].
  revert d Hnp. induction cbmap as [|[key cb] rest IH]; intros d Hnp k cb' Hin Hk.
  - by apply elem_of_nil in Hin.
  - simpl in Hnd. apply NoDup_cons in Hnd as [Hkey Hnd]. simpl in Hnp.
    apply elem_of_cons in Hin as [[= -> ->]|Hin].
    + rewrite Hk in Hnp. simpl in Hnp.
      destruct (cb self) as [v|e]; simpl in Hnp; [|done].
      exists v. split; [done|].
      rewrite (apply_cbmap_untouched _ _ _ _ key
                 ltac:(by apply dict_has_false_not_elem) Hnp).
      by rewrite dict_get_set, bool_decide_eq_true_2.
    + destruct (dict_has key d) eqn:Hkd; simpl in Hnp.
      * destruct (cb self) as [v|e]; simpl in Hnp; [|done].
        apply (IH Hnd _ Hnp k cb' Hin). by rewrite dict_has_set.
      * by apply (IH Hnd _ Hnp k cb' Hin).
Qed.

Lemma dict_set_comm {V} (k1 k2 : string) (v1 v2 : V) (d : dict V) :
  k1 <> k2 -> dict_has k1 d = true -> dict_has k2 d = true ->
  dict_set k1 v1 (dict_set k2 v2 d) = dict_set k2 v2 (dict_set k1 v1 d).
Proof.
  intros Hne. induction d as [|[k w] d IH]; simpl; [done|].
  intros H1 H2.
  destruct (decide (k = k1)) as [E1|Hk1], (decide (k = k2)) as [E2|Hk2];
    [congruence|subst k|subst k|].
  - rewrite (bool_decide_eq_false_2 (k1 = k2)) by done. simpl.
    rewrite (bool_decide_eq_true_2 (k1 = k1)) by done. simpl.
    by rewrite (bool_decide_eq_false_2 (k1 = k2)) by done.
  - rewrite (bool_decide_eq_true_2 (k2 = k2)), (bool_decide_eq_false_2 (k2 = k1))
      by done. simpl.
    by rewrite (bool_decide_eq_true_2 (k2 = k2)), (bool_decide_eq_false_2 (k2 = k1))
      by done.
  - rewrite (bool_decide_eq_false_2 (k = k1)), (bool_decide_eq_false_2 (k = k2)) in *
      by done. simpl in *.
    rewrite (bool_decide_eq_false_2 (k = k1)), (bool_decide_eq_false_2 (k = k2))
      by done.
    by rewrite IH.
Qed.

Lemma apply_cbmap_order (self : Task) (cbmap cbmap' : dict callback)
    (d np : dict value) :
  cbmap ≡ₚ cbmap' -> NoDup (dict_keys cbmap) ->
  BaseTask.apply_cbmap self cbmap d = Ok np ->
  BaseTask.apply_cbmap self cbmap' d = Ok np.
Proof.
  intros Hperm. revert d np.
  induction Hperm as [|[key cb] l l' Hperm IH|[k1 cb1] [k2 cb2] l|l l' l'' H1 IH1 H2 IH2];
    intros d np Hnd Hnp.
  - done.
  - simpl in *. apply NoDup_cons in Hnd as [_ Hnd].
    destruct (dict_has key d); simpl in *; [|by apply IH].
    destruct (cb self) as [v|e]; simpl in *; [by apply IH | done].
  - simpl in *. apply NoDup_cons in Hnd as [Hne _].
    assert (k1 <> k2) as Hk by (intros ->; apply Hne; by left).
    revert Hnp.
    destruct (dict_has k1 d) eqn:Hd1, (dict_has k2 d) eqn:Hd2; simpl; [| | |done].
    + destruct (cb2 self) as [v2|e2]; simpl; [|done].
      rewrite dict_has_set, Hd1 by done. simpl.
      destruct (cb1 self) as [v1|e1]; simpl; [|done].
      rewrite dict_has_set, Hd2 by done. simpl.
      by rewrite dict_set_comm.
    + destruct (cb1 self) as [v1|e1]; simpl; [|done].
      by rewrite dict_has_set, Hd2 by done.
    + destruct (cb2 self) as [v2|e2]; simpl; [|done].
      by rewrite dict_has_set, Hd1 by done.
  - apply IH2; [|by apply IH1].
    unfold dict_keys. by rewrite <- H1.
Qed.

(** X6. The order of the rules does not matter: a path that
    [BaseTask.path] returns for a [cbmap] is returned for every other
    iteration order of that [cbmap], since each callback reads the task and
    not the parameters already replaced. *)
Theorem path_cbmap_order (self : Task) (ext : string) (digest : bool)
    (cbmap cbmap' : dict callback) (p : string) :
  cbmap ≡ₚ cbmap' -> NoDup (dict_keys cbmap) ->
  BaseTask.path self None ext digest (Some cbmap) = Ok p ->
  BaseTask.path self None ext digest (Some cbmap') = Ok p.
Proof.
  intros Hperm Hnd. rewrite !path_unfold. simpl.
  destruct (TAG self) as [tag|], (BASE self) as [base|]; try done.
  destruct (BaseTask.apply_cbmap self cbmap _) as [np|e] eqn:Hnp; [|done].
  by rewrite (apply_cbmap_order self cbmap cbmap' _ np Hperm Hnd Hnp).
Qed.

(** ** Where a path lies *)

(** X7. An absolute [filename] argument wins over [BASE], [TAG] and the
    task name: [os.path.join] drops what precedes it, and [BaseTask.path]
    returns the file name itself, whatever bytes it holds. The components
    that precede it are still joined, and are ASCII for that to succeed. *)
Theorem path_absolute_filename (self : Task) (filename ext base tag : string)
    (digest : bool) (cbmap : option (dict callback)) :
  BASE self = Some base -> TAG self = Some tag ->
  is_ascii base = true -> is_ascii tag = true ->
  is_ascii (task_name self) = true ->
  startswith filename "/" = true ->
  BaseTask.path self (Some filename) ext digest cbmap = Ok filename.
Proof.
  intros HB HT Hbase Htag Hname Habs. rewrite path_explicit, HB, HT.
  by apply joined_absolute.
Qed.

Lemma startswith_refl (s : string) : startswith s s = true.
Proof. induction s as [|c s IH]; [done|]. simpl. by rewrite bool_decide_eq_true_2. Qed.

Lemma startswith_app_l (s p t : string) :
  startswith s p = true -> startswith (s +:+ t) p = true.
Proof.
  revert s. induction p as [|c p IH]; intros s.
  - intros _. by destruct (s +:+ t).
  - destruct s as [|b s]; [done|]. rewrite str_app_cons. simpl.
    intros [Hc Hs]%andb_true_iff. by rewrite Hc, IH.
Qed.

Lemma join2_relative (path b : string) :
  startswith b "/" = false -> startswith (OsPath.join2 path b) path = true.
Proof.
  intros Hrel. unfold OsPath.join2. rewrite Hrel.
  destruct (_ || _); apply startswith_app_l, startswith_refl.
Qed.

Lemma startswith_trans (s t p : string) :
  startswith s t = true -> startswith t p = true -> startswith s p = true.
Proof.
  revert s t. induction p as [|c p IH]; intros s t; [by destruct s|].
  destruct t as [|b t]; [done|]. destruct s as [|a s]; [done|]. simpl.
  intros [Hab Hst]%andb_true_iff [Hcb Htp]%andb_true_iff.
  apply bool_decide_eq_true in Hab as ->. rewrite Hcb. simpl. by eapply IH.
Qed.

Lemma join_relative (p : list string) (a : string) :
  Forall (fun b => startswith b "/" = false) p ->
  startswith (OsPath.join a p) a = true.
Proof.
  intros Hp. revert a. induction Hp as [|b p Hb Hp IH]; intros a; simpl.
  - apply startswith_refl.
  - eapply startswith_trans; [apply IH | by apply join2_relative].
Qed.

(** X8. The path starts with [BASE] when neither [TAG], nor the task name,
    nor the file name starts with a slash; the file name is the explicit
    one, or a digest name. *)
Theorem path_below_base (self : Task) (filename : option string)
    (ext base tag : string) (digest : bool) (cbmap : option (dict callback))
    (p : string) :
  BASE self = Some base -> TAG self = Some tag ->
  startswith tag "/" = false -> startswith (task_name self) "/" = false ->
  match filename with
  | Some f => startswith f "/" = false
  | None => digest = true
  end ->
  BaseTask.path self filename ext digest cbmap = Ok p ->
  startswith p base = true.
Proof.
  intros HB HT Htag Hname Hfile.
  assert (forall f, startswith f "/" = false ->
            startswith (OsPath.join base [tag; task_name self; f]) base = true)
    as Hjoin.
  { intros f Hf. apply join_relative. by repeat constructor. }
  destruct filename as [f|].
  - rewrite path_explicit, HB, HT. intros ->%joined_Ok. by apply Hjoin.
  - subst digest. rewrite path_unfold, HB, HT.
    destruct (BaseTask.apply_cbmap _ _ _) as [np|e]; [|done].
    unfold mbind, result_bind. intros ->%joined_Ok. apply Hjoin.
    destruct (default_filename_digest np ext) as (stem & -> & Hlen & Hhex).
    destruct stem as [|c stem]; [simpl in Hlen; lia|].
    rewrite str_app_cons. simpl in Hhex |- *.
    apply andb_true_iff in Hhex as [Hc _].
    rewrite bool_decide_eq_false_2; [done|]. intros <-. by vm_compute in Hc.
Qed.

(** ** Colliding names *)

Lemma sorted_pair (a b : string) : String.le a b -> sorted [a; b] = [a; b].
Proof.
  intros Hle. apply sorted_unique; [done|].
  repeat constructor. done.
Qed.

(** X9. Readable names are not injective. The separator is not escaped, so
    a task with the two parameters [k1 = v1] and [k2 = v2] and a task with
    the single parameter [k1 = "v1-k2-v2"] get the same path (also with
    [digest]); [k1-v1] is taken to sort before [k2-v2]. *)
Theorem path_collision (self : Task) (k1 v1 k2 v2 ext : string) (digest : bool) :
  k1 <> k2 ->
  String.le (k1 +:+ "-" +:+ v1) (k2 +:+ "-" +:+ v2) ->
  BaseTask.path (with_params self [(k1, VStr v1); (k2, VStr v2)])
    None ext digest None
  = BaseTask.path
      (with_params self [(k1, VStr (v1 +:+ "-" +:+ k2 +:+ "-" +:+ v2))])
      None ext digest None.
Proof.
  intros _ Hle. rewrite !path_unfold. simpl.
  destruct (TAG self) as [tag|], (BASE self) as [base|]; try done.
  unfold BaseTask.default_filename, BaseTask.parts. simpl.
  rewrite (sorted_pair _ _ Hle).
  unfold str_join. simpl.
  by rewrite !str_app_assoc.
Qed.

(** ** The task directory of SplitFile *)

Lemma endswith_slash_app_r (s t : string) :
  t <> "" -> endswith_slash (s +:+ t) = endswith_slash t.
Proof.
  intros Ht. induction s as [|c s IH]; [done|].
  rewrite str_app_cons. simpl. rewrite IH.
  destruct (s +:+ t) eqn:Hst; [|done].
  destruct s; [by rewrite str_app_nil_l in Hst | by rewrite str_app_cons in Hst].
Qed.

Lemma all_slashes_app (s t : string) :
  OsPath.all_slashes (s +:+ t) = OsPath.all_slashes s && OsPath.all_slashes t.
Proof.
  induction s as [|c s IH]; [done|].
  rewrite str_app_cons. simpl. by rewrite IH, andb_assoc.
Qed.

Lemma rstrip_slash_app (s : string) :
  OsPath.rstrip_slash (s +:+ "/") = OsPath.rstrip_slash s.
Proof.
  induction s as [|c s IH]; [done|].
  rewrite str_app_cons. simpl. by rewrite IH.
Qed.

Lemma rstrip_slash_id (s : string) :
  endswith_slash s = false -> OsPath.rstrip_slash s = s.
Proof.
  induction s as [|c s IH]; [done|]. simpl.
  destruct s as [|c' s].
  - simpl. intros ->. done.
  - intros Hend. rewrite (IH Hend). done.
Qed.

Lemma dirname_join_file (dir name : string) :
  endswith_slash dir = false -> OsPath.all_slashes dir = false ->
  contains SLASH name = false ->
  OsPath.dirname (OsPath.join dir [name]) = dir.
Proof.
  intros Hend Hall Hname.
  assert (OsPath.join dir [""] = dir +:+ "/") as Hdir.
  { unfold OsPath.join. simpl. unfold OsPath.join2. simpl.
    rewrite Hend, orb_false_r.
    destruct dir; [done|]. by rewrite bool_decide_eq_false_2 by done. }
  rewrite join_file by exact Hname. rewrite Hdir. unfold OsPath.dirname.
  rewrite rsplit_app by (exact Hname || apply endswith_slash_app). simpl.
  rewrite all_slashes_app, Hall. simpl.
  rewrite bool_decide_eq_false_2 by (by destruct dir). simpl.
  rewrite rstrip_slash_app. by apply rstrip_slash_id.
Qed.

Lemma str_length_app (s t : string) :
  String.length (s +:+ t) = String.length s + String.length t.
Proof.
  induction s as [|c s IH]; [done|]. rewrite str_app_cons. simpl. by rewrite IH.
Qed.

Lemma join2_name (path name : string) :
  startswith name "/" = false ->
  exists pre, OsPath.join2 path name = pre +:+ name.
Proof.
  intros Hrel. unfold OsPath.join2. rewrite Hrel.
  destruct (_ || _); [by exists path|].
  exists (path +:+ "/"). by rewrite str_app_assoc.
Qed.

(** X10. When the temporary directory is ASCII, the output of [SplitFile]
    is defined whatever the file name and [chunks] are, and its directory,
    the directory in which [split] runs, is [join(tmpdir, 'common',
    'SplitFile')] for every task: the manifest, a name of 44 characters,
    lies in the directory that [iterfiles] lists. *)
Theorem splitfile_taskdir (tmpdir : string) (self : SplitFile.t) :
  is_ascii tmpdir = true ->
  exists out,
    SplitFile.output tmpdir self = Ok out
    /\ OsPath.dirname out = OsPath.join tmpdir ["common"; "SplitFile"]
    /\ below (OsPath.dirname out) out = true
    /\ String.length (OsPath.basename out) = 44.
Proof.
  intros Hascii.
  destruct (default_filename_digest
              (task_params (SplitFile.task tmpdir self)) "tsv")
    as (stem & Hstem & Hlen & Hhex).
  assert (contains SLASH (stem +:+ "." +:+ "tsv") = false) as Hname.
  { by rewrite !contains_app, (hex_no_slash stem Hhex). }
  set (dir := OsPath.join tmpdir ["common"; "SplitFile"]).
  exists (OsPath.join dir [stem +:+ "." +:+ "tsv"]).
  destruct (join2_name (OsPath.join2 tmpdir "common") "SplitFile" eq_refl)
    as [pre Hpre].
  assert (dir = pre +:+ "SplitFile") as Hdir by exact Hpre.
  assert (OsPath.dirname (OsPath.join dir [stem +:+ "." +:+ "tsv"]) = dir) as Hdn.
  { apply dirname_join_file; [| |done]; rewrite Hdir.
    - by rewrite endswith_slash_app_r.
    - rewrite all_slashes_app. apply andb_false_r. }
  split; [|split; [done|split]].
  - unfold SplitFile.output. rewrite path_unfold.
    cbv [SplitFile.task TAG BASE data task_name task_params default
         BaseTask.apply_cbmap mbind result_bind] in Hstem |- *.
    rewrite Hstem. apply joined_ascii; [done..|].
    by rewrite !is_ascii_app, (hex_is_ascii stem Hhex).
  - rewrite Hdn. by apply below_join.
  - rewrite basename_join by done. by rewrite str_length_app, Hlen.
Qed.

(** ** What a run leaves behind *)

(** When the command line is made of shell words, a run either fails with
    the files as they were, or it has split the file that the name of the
    input denotes in the task directory and written the manifest. *)
Lemma run_outcome sh suffix tmpdir self prefix (fs : FileSystem) out :
  SplitFile.output tmpdir self = Ok out ->
  shell_word (OsPath.dirname out) = true ->
  shell_word (SplitFile.filename self) = true ->
  shell_word prefix = true ->
  (exists e, SplitFile.run sh suffix tmpdir self prefix fs = (Raise e, fs))
  \/ exists input lines,
       (0 < lines)%Z
       /\ SplitFile.run sh suffix tmpdir self prefix fs
          = let fs' := split_files suffix (OsPath.dirname out) prefix
                         (split_l (Z.to_nat lines) input) fs in
            (Ok tt,
             <[out := cat (map write_tsv
                        (SplitFile.manifest_paths prefix
                           (List.filter (below (OsPath.dirname out))
                              (map_to_list fs').*1)))]> fs').
Proof.
  intros Hout Hdir Hname Hprefix.
  destruct (fs !! SplitFile.filename self) as [contents|] eqn:Hfile;
    [|left; eexists; by apply run_unreadable].
  destruct (SplitFile.lines_per_chunk (line_count contents) (SplitFile.chunks self))
    as [lines|e] eqn:Hlines;
    [|left; eexists; by eapply run_raises_arith].
  destruct (decide (lines <= 0)%Z) as [Hle|Hpos].
  { left. destruct (run_split_rejects sh suffix tmpdir self prefix fs contents
                      lines out) as [command Hrun]; [done..|]. by eexists. }
  destruct (fs !! OsPath.join (OsPath.dirname out) [SplitFile.filename self])
    as [input|] eqn:Hinput.
  - right. exists input, lines. split; [lia|].
    apply (run_splits _ _ _ _ _ _ contents); (done || lia).
  - left. destruct (run_input_missing sh suffix tmpdir self prefix fs contents
                      lines out) as [command Hrun]; [done..|]. by eexists.
Qed.

(** X11. [SplitFile.run] writes nothing but pieces and the manifest: every
    path that is neither the manifest nor the path of a piece holds after
    the run, failed or not, what it held before, and no file is removed. The
    task directory, the name of the input and the prefix are shell words;
    the command line quotes nothing, and on other strings the shell may run
    any command. *)
Theorem run_writes_pieces_and_manifest_only (sh : string -> IO unit)
    (suffix : nat -> string) (tmpdir : string) (self : SplitFile.t)
    (prefix : string) (fs : FileSystem) (out p : string) :
  SplitFile.output tmpdir self = Ok out ->
  shell_word (OsPath.dirname out) = true ->
  shell_word (SplitFile.filename self) = true ->
  shell_word prefix = true ->
  (p <> out ->
   (forall i, p <> piece_path suffix (OsPath.dirname out) prefix i) ->
   (SplitFile.run sh suffix tmpdir self prefix fs).2 !! p = fs !! p)
  /\ (is_Some (fs !! p) ->
      is_Some ((SplitFile.run sh suffix tmpdir self prefix fs).2 !! p)).
Proof.
  intros Hout Hdir Hname Hprefix.
  destruct (run_outcome sh suffix tmpdir self prefix fs out Hout Hdir Hname Hprefix)
    as [[e ->]|(input & lines & _ & ->)]; [done|].
  cbv zeta. simpl. split.
  - intros Hp Hpiece. rewrite lookup_insert_ne by done.
    apply write_pieces_other. intros j _. by apply not_eq_sym.
  - intros Hsome. apply lookup_insert_is_Some'. right.
    apply write_pieces_is_Some. by right.
Qed.


(** ** How the input is cut *)

Lemma piece_sizes_range (n room total : nat) :
  1 <= room <= n ->
  Forall (fun k => 1 <= k <= n) (piece_sizes n room total)
  /\ match piece_sizes n room total with
     | [] => True
     | k :: _ => k <= room
     end.
Proof.
  revert room. induction total as [|total IH]; intros room Hroom; simpl; [done|].
  destruct room as [|[|r]]; [lia| |].
  - destruct (IH n ltac:(lia)) as [Hall _].
    split; [constructor; [lia | done] | done].
  - destruct (IH (S r) ltac:(lia)) as [Hall Hhead].
    destruct (piece_sizes n (S r) total) as [|k ks]; simpl.
    + split; [repeat constructor; lia | lia].
    + apply Forall_cons in Hall as [Hk Hks].
      split; [constructor; [lia | done] | lia].
Qed.

Lemma split_l_piece_lines (n : nat) (s : string) :
  1 <= n -> Forall (fun piece => 1 <= line_count piece <= n) (split_l n s).
Proof.
  intros Hn.
  destruct (piece_sizes_range n n (line_count s) ltac:(lia)) as [Hall _].
  rewrite <- split_go_sizes in Hall. by apply Forall_fmap in Hall.
Qed.

(** X13. Bounded number of pieces. For [chunks >= 1] the line count per
    piece is at least 1 and large enough for [chunks] pieces to hold the
    input, so [split] makes at most [chunks] pieces; each piece has at least
    one line and at most that many. *)
Theorem splitfile_pieces_bounded (contents : string) (chunks : Z) :
  (1 <= chunks)%Z ->
  exists lines,
    SplitFile.lines_per_chunk (line_count contents) chunks = Ok lines
    /\ (1 <= lines)%Z
    /\ (Z.of_nat (line_count contents) < lines * chunks)%Z
    /\ length (split_l (Z.to_nat lines) contents) <= Z.to_nat chunks
    /\ Forall (fun piece => 1 <= line_count piece <= Z.to_nat lines)
              (split_l (Z.to_nat lines) contents).
Proof.
  intros Hc. eexists. split; [apply lines_per_chunk_floor; lia|].
  pose proof (lines_positive (line_count contents) chunks Hc) as Hpos.
  split; [done|]. split.
  { pose proof (Z.mul_succ_div_gt (Z.of_nat (line_count contents) + chunks) chunks).
    lia. }
  split; [by apply pieces_bounded|].
  apply split_l_piece_lines. lia.
Qed.

Lemma manifest_paths_fresh (taskdir prefix : string) (fs : FileSystem) :
  (forall p, is_Some (fs !! p) -> clash taskdir prefix p = false) ->
  SplitFile.manifest_paths prefix (List.filter (below taskdir) (map_to_list fs).*1)
  = [].
Proof.
  intros Hfresh.
  destruct (SplitFile.manifest_paths _ _) as [|p ps] eqn:Hpaths; [done|].
  assert (p ∈ SplitFile.manifest_paths prefix
                (List.filter (below taskdir) (map_to_list fs).*1)) as Hin.
  { rewrite Hpaths. by left. }
  apply elem_of_manifest_paths in Hin as [Hstart Hin].
  apply elem_of_List_filter in Hin as [Hbelow Hin].
  apply elem_of_keys, Hfresh in Hin. unfold clash in Hin.
  by rewrite Hbelow, Hstart in Hin.
Qed.


(** X15. With [chunks = 1] the line count per piece is [line_count + 1] and
    a non-empty input is cut into one piece, the input itself. *)
Theorem splitfile_single_chunk (contents : string) :
  contents <> "" ->
  SplitFile.lines_per_chunk (line_count contents) 1
  = Ok (Z.of_nat (line_count contents) + 1)%Z
  /\ split_l (Z.to_nat (Z.of_nat (line_count contents) + 1)) contents = [contents].
Proof.
  intros Hne.
  assert (SplitFile.lines_per_chunk (line_count contents) 1
          = Ok (Z.of_nat (line_count contents) + 1)%Z) as Hlines.
  { rewrite lines_per_chunk_floor by done. by rewrite Z.div_1_r. }
  split; [done|].
  pose proof (pieces_bounded 1 contents ltac:(lia)) as Hbound.
  rewrite Z.div_1_r in Hbound.
  pose proof (cat_split_l (Z.to_nat (Z.of_nat (line_count contents) + 1)) contents)
    as Hcat.
  destruct (split_l _ contents) as [|piece [|piece' pieces]] eqn:Hsplit.
  - by apply split_go_nil in Hsplit.
  - rewrite cat_cons in Hcat. simpl in Hcat. by rewrite str_app_nil_r in Hcat; subst.
  - simpl in Hbound. lia.
Qed.

Lemma split_l_one (s : string) : split_l 1 s = readlines s.
Proof.
  unfold split_l. induction s as [|c s IH]; [done|]. simpl.
  by rewrite IH.
Qed.

(** X16. More chunks than lines. When [chunks] exceeds the number of lines,
    the line count per piece is 1: every line becomes a piece of its own, so
    that there are as many pieces as lines, fewer than [chunks]. *)
Theorem splitfile_more_chunks_than_lines (contents : string) (chunks : Z) :
  (Z.of_nat (line_count contents) < chunks)%Z ->
  SplitFile.lines_per_chunk (line_count contents) chunks = Ok 1%Z
  /\ split_l 1 contents = readlines contents
  /\ length (split_l 1 contents) = line_count contents.
Proof.
  intros Hlt. split; [|split; [apply split_l_one | by rewrite split_l_one]].
  rewrite lines_per_chunk_floor by lia. f_equal.
  symmetry. apply (Z.div_unique _ _ 1 (Z.of_nat (line_count contents))); lia.
Qed.

(** ** Instances of the further properties *)

Lemma path_digest_wellformed_witness :
  exists stem,
    BaseTask.path Examples.jan05 None "tsv" true (Some [("date", nearest)])
    = Ok (OsPath.join "/tmp" ["t"; "ExampleTask"; stem +:+ "." +:+ "tsv"])
    /\ String.length stem = 40
    /\ str_forall is_hexdigit stem = true.
Proof.
  apply (path_digest_wellformed Examples.jan05 "tsv" "/tmp" "t"
           (Some [("date", nearest)])
           [("date", VDate (Date 2020 1 1)); ("kind", VStr "full")]).
  - reflexivity.
  - reflexivity.
  - reflexivity.
  - reflexivity.
  - reflexivity.
  - reflexivity.
  - reflexivity.
Defined.

Lemma path_digest_basename_witness :
  exists stem,
    OsPath.basename "/tmp/t/ExampleTask/9808c666cbd05f65bc8724fc1f8b8efe031c9e30.tsv"
    = stem +:+ "." +:+ "tsv"
    /\ String.length stem = 40
    /\ contains SLASH
         (OsPath.basename
            "/tmp/t/ExampleTask/9808c666cbd05f65bc8724fc1f8b8efe031c9e30.tsv")
       = false.
Proof.
  apply (path_digest_basename Examples.jan05 "tsv" None).
  - reflexivity.
  - vm_compute. reflexivity.
Defined.

Lemma path_no_parameters_output_witness :
  BaseTask.path (with_params Examples.jan05 []) None "tsv" true
    (Some [("date", MoreExamples.failing)])
  = BaseTask.path (with_params Examples.jan05 [])
      (Some ("1029d67644815d428f554e390aa966d57a0b29b8" +:+ "." +:+ "tsv"))
      "tsv" true (Some [("date", MoreExamples.failing)]).
Proof.
  apply (path_no_parameters_output (with_params Examples.jan05 []) "tsv" true).
  reflexivity.
Defined.

Lemma path_skips_absent_rules_witness :
  BaseTask.path Examples.jan05 None "tsv" false
    (Some [("day", MoreExamples.failing)])
  = BaseTask.path Examples.jan05 None "tsv" false None.
Proof.
  apply (path_skips_absent_rules Examples.jan05 None "tsv" false).
  apply Forall_cons_2; [reflexivity | apply Forall_nil_2].
Defined.

Lemma apply_cbmap_spec_witness :
  dict_keys [("date", VDate (Date 2020 1 1)); ("kind", VStr "all")]
  = dict_keys (task_params Examples.jan05)
  /\ (forall k cb,
        (k, cb) ∈ [("kind", MoreExamples.constant (VStr "all")); ("date", nearest)] ->
        dict_has k (task_params Examples.jan05) = true ->
        exists v, cb Examples.jan05 = Ok v
          /\ dict_get k [("date", VDate (Date 2020 1 1)); ("kind", VStr "all")]
             = Some v)
  /\ (forall k,
        dict_has k [("kind", MoreExamples.constant (VStr "all")); ("date", nearest)]
        = false ->
        dict_get k [("date", VDate (Date 2020 1 1)); ("kind", VStr "all")]
        = dict_get k (task_params Examples.jan05)).
Proof.
  apply (apply_cbmap_spec Examples.jan05).
  - apply (bool_decide_unpack _). vm_compute. exact I.
  - reflexivity.
Defined.

Lemma path_cbmap_order_witness :
  BaseTask.path Examples.jan05 None "tsv" false
    (Some [("date", nearest); ("kind", MoreExamples.constant (VStr "all"))])
  = Ok "/tmp/t/ExampleTask/date-2020-01-01-kind-all.tsv".
Proof.
  apply (path_cbmap_order Examples.jan05 "tsv" false
           [("kind", MoreExamples.constant (VStr "all")); ("date", nearest)]).
  - apply perm_swap.
  - apply (bool_decide_unpack _). vm_compute. exact I.
  - reflexivity.
Defined.

Lemma path_absolute_filename_witness :
  BaseTask.path Examples.jan05 (Some "/etc/hosts") "tsv" false None
  = Ok "/etc/hosts".
Proof.
  apply (path_absolute_filename Examples.jan05 "/etc/hosts" "tsv" "/tmp" "t").
  - reflexivity.
  - reflexivity.
  - reflexivity.
  - reflexivity.
  - reflexivity.
  - reflexivity.
Defined.

Lemma splitfile_taskdir_witness :
  exists out,
    SplitFile.output "/tmp" Examples.split2 = Ok out
    /\ OsPath.dirname out = OsPath.join "/tmp" ["common"; "SplitFile"]
    /\ below (OsPath.dirname out) out = true
    /\ String.length (OsPath.basename out) = 44.
Proof.
  apply (splitfile_taskdir "/tmp" Examples.split2). reflexivity.
Defined.

Lemma path_below_base_witness :
  startswith "/tmp/t/ExampleTask/summary.csv" "/tmp" = true.
Proof.
  apply (path_below_base Examples.jan05 (Some "summary.csv") "tsv" "/tmp" "t"
           false None).
  - reflexivity.
  - reflexivity.
  - reflexivity.
  - reflexivity.
  - reflexivity.
  - reflexivity.
Defined.

Lemma path_collision_witness :
  BaseTask.path
    (with_params Examples.jan05 [("a", VStr "1"); ("b", VStr "2")])
    None "tsv" false None
  = BaseTask.path
      (with_params Examples.jan05 [("a", VStr ("1" +:+ "-" +:+ "b" +:+ "-" +:+ "2"))])
      None "tsv" false None.
Proof.
  apply (path_collision Examples.jan05 "a" "1" "b" "2" "tsv" false).
  - discriminate.
  - vm_compute. exact I.
Defined.

Lemma run_writes_pieces_and_manifest_only_witness :
  ("/data/in.txt" <> MoreExamples.manifest2 ->
   (forall i, "/data/in.txt"
              <> piece_path posix_suffix (OsPath.dirname MoreExamples.manifest2)
                   "XYZ" i) ->
   (SplitFile.run Examples.no_shell posix_suffix "/tmp" Examples.split2 "XYZ"
      (Examples.disk Examples.four_lines)).2 !! "/data/in.txt"
   = Examples.disk Examples.four_lines !! "/data/in.txt")
  /\ (is_Some (Examples.disk Examples.four_lines !! "/data/in.txt") ->
      is_Some ((SplitFile.run Examples.no_shell posix_suffix "/tmp" Examples.split2
                  "XYZ" (Examples.disk Examples.four_lines)).2 !! "/data/in.txt")).
Proof.
  apply (run_writes_pieces_and_manifest_only Examples.no_shell posix_suffix "/tmp"
           Examples.split2).
  - vm_compute. reflexivity.
  - vm_compute. reflexivity.
  - reflexivity.
  - reflexivity.
Defined.


Lemma splitfile_pieces_bounded_witness :
  exists lines,
    SplitFile.lines_per_chunk (line_count Examples.hundred_lines) 7 = Ok lines
    /\ (1 <= lines)%Z
    /\ (Z.of_nat (line_count Examples.hundred_lines) < lines * 7)%Z
    /\ length (split_l (Z.to_nat lines) Examples.hundred_lines) <= Z.to_nat 7
    /\ Forall (fun piece => 1 <= line_count piece <= Z.to_nat lines)
              (split_l (Z.to_nat lines) Examples.hundred_lines).
Proof.
  apply (splitfile_pieces_bounded Examples.hundred_lines 7). lia.
Defined.


Lemma splitfile_single_chunk_witness :
  SplitFile.lines_per_chunk (line_count Examples.four_lines) 1
  = Ok (Z.of_nat (line_count Examples.four_lines) + 1)%Z
  /\ split_l (Z.to_nat (Z.of_nat (line_count Examples.four_lines) + 1))
       Examples.four_lines
     = [Examples.four_lines].
Proof.
  apply (splitfile_single_chunk Examples.four_lines). discriminate.
Defined.

Lemma splitfile_more_chunks_than_lines_witness :
  SplitFile.lines_per_chunk (line_count Examples.four_lines) 10 = Ok 1%Z
  /\ split_l 1 Examples.four_lines = readlines Examples.four_lines
  /\ length (split_l 1 Examples.four_lines) = line_count Examples.four_lines.
Proof.
  apply (splitfile_more_chunks_than_lines Examples.four_lines 10).
  vm_compute. reflexivity.
Defined.
